(** * pytinybeans: a shallow embedding of [pytinybeans/pytinybeans.py]

    The client is a sequential REST client written in a dynamically typed
    language.  The embedding keeps three layers apart:

    - [jvalue]: the values [response.json()] hands to the program, with
      the Python operations the source applies to them (subscript,
      iteration, truth value, [in], [>]) and the exception each raises;
    - [result] and [M]: pure fallible evaluation, and evaluation that
      also touches the client object and the outside world;
    - the classes and methods of the source, in source order. *)

From Stdlib Require Import ZArith String Ascii List.
From stdpp Require Import base gmap strings list pretty.

#[local] Set Warnings "-register-all".
#[local] Open Scope string_scope.
#[local] Open Scope Z_scope.
#[local] Open Scope list_scope.

(** ** Decoded JSON values *)

(** What [json.loads] produces: [None], [bool], [int], [str], [list] and
    [dict] with string keys.  JSON numbers with a fraction or an exponent
    (Python [float]) are outside this model. *)
Inductive jvalue : Type :=
  | JNull
  | JBool (b : bool)
  | JInt (z : Z)
  | JStr (s : string)
  | JList (l : list jvalue)
  | JObj (m : gmap string jvalue).

(** The exceptions the source can meet.  Every constructor stands for a
    subclass of Python's [Exception]; [RemoteError] and [OSError] are what
    the HTTP session, the identity service, the object store and the file
    system raise. *)
Inductive exn : Type :=
  | KeyError (key : jvalue)
  | TypeError
  | IndexError
  | AttributeError
  | ZeroDivisionError
  | OverflowError
  | JSONDecodeError
  | OSError (msg : string)
  | RemoteError (msg : string).

(** ** Pure fallible evaluation *)

Inductive result (A : Type) : Type :=
  | Ok (a : A)
  | Err (e : exn).
Arguments Ok {A} a.
Arguments Err {A} e.

Definition rbind {A B : Type} (r : result A) (k : A -> result B) : result B :=
  match r with
  | Ok a => k a
  | Err e => Err e
  end.

Declare Scope result_scope.
Delimit Scope result_scope with R.
Notation "x <- r ;; k" := (rbind r (fun x => k))
  (at level 100, r at next level, right associativity) : result_scope.

(** ** Python operations on decoded values *)

Module Py.

(** [bool(v)]: the truth value Python's [if v:] and [not v] test. *)
Definition truthy (v : jvalue) : bool :=
  match v with
  | JNull => false
  | JBool b => b
  | JInt z => negb (z =? 0)
  | JStr s => negb (String.eqb s "")
  | JList l => negb (Nat.eqb (length l) 0)
  | JObj m => negb (Nat.eqb (size m) 0)
  end.

(** [v[k]] for a string key [k]. *)
Definition getitem (v : jvalue) (k : string) : result jvalue :=
  match v with
  | JObj m =>
      match m !! k with
      | Some x => Ok x
      | None => Err (KeyError (JStr k))
      end
  | _ => Err TypeError
  end.

(** [v[0]]. *)
Definition getitem0 (v : jvalue) : result jvalue :=
  match v with
  | JList (x :: _) => Ok x
  | JList [] => Err IndexError
  | JStr (String c _) => Ok (JStr (String c ""))
  | JStr EmptyString => Err IndexError
  | JObj _ => Err (KeyError (JInt 0))
  | _ => Err TypeError
  end.

(** [v.get(k)]: only a [dict] has the method. *)
Definition get (v : jvalue) (k : string) : result jvalue :=
  match v with
  | JObj m => Ok (default JNull (m !! k))
  | _ => Err AttributeError
  end.

(** [v == s] for a string literal [s]. *)
Definition eq_str (v : jvalue) (s : string) : bool :=
  match v with
  | JStr t => String.eqb t s
  | _ => false
  end.

(** The items [for x in v] visits.  A [dict] yields its keys (Python in
    insertion order, here in the order of [map_to_list]); a [str] yields
    its characters. *)
Definition iterate (v : jvalue) : result (list jvalue) :=
  match v with
  | JList l => Ok l
  | JStr s => Ok ((fun c => JStr (String c "")) <$> list_ascii_of_string s)
  | JObj m => Ok ((fun kv => JStr kv.1) <$> map_to_list m)
  | _ => Err TypeError
  end.

Fixpoint is_substring (needle hay : string) : bool :=
  String.prefix needle hay
  || match hay with
     | EmptyString => false
     | String _ hay' => is_substring needle hay'
     end.

(** [k in v] for a string literal [k]. *)
Definition contains (k : string) (v : jvalue) : result bool :=
  match v with
  | JObj m => Ok (bool_decide (is_Some (m !! k)))
  | JList l => Ok (existsb (fun x => eq_str x k) l)
  | JStr s => Ok (is_substring k s)
  | _ => Err TypeError
  end.

(** [v > 0]; [bool] is a subclass of [int]. *)
Definition gt0 (v : jvalue) : result bool :=
  match v with
  | JInt z => Ok (0 <? z)
  | JBool b => Ok b
  | _ => Err TypeError
  end.

(** The least magnitude that does not round to a finite float: half a
    unit in the last place above the largest one. *)
Definition float_overflow_bound : Z := 2 ^ 1024 - 2 ^ 970.

(** [a / b] on [int]s, for what it raises: [ZeroDivisionError] when the
    divisor is zero, [OverflowError] when the quotient, correctly rounded,
    is too large for a float.  The quotient itself is only rounded and
    logged by the source ([* 100] and [round(_, 2)] raise nothing). *)
Definition true_divide (a b : Z) : result unit :=
  if b =? 0 then Err ZeroDivisionError
  else if float_overflow_bound * Z.abs b <=? Z.abs a then Err OverflowError
  else Ok tt.

(** [s.upper()] on ASCII letters. *)
Definition upper_ascii (c : ascii) : ascii :=
  let n := nat_of_ascii c in
  if (Nat.leb 97 n && Nat.leb n 122)%bool then ascii_of_nat (n - 32) else c.

Fixpoint upper (s : string) : string :=
  match s with
  | EmptyString => EmptyString
  | String c s' => String (upper_ascii c) (upper s')
  end.

(** [s.split(".")[-1]]: what follows the last dot, or all of [s]. *)
Fixpoint split_dot_last_from (cur s : string) : string :=
  match s with
  | EmptyString => cur
  | String c s' =>
      if Ascii.eqb c "."%char then split_dot_last_from "" s'
      else split_dot_last_from (cur +:+ String c "") s'
  end.

Definition split_dot_last (s : string) : string := split_dot_last_from "" s.

(** A [for] loop that appends [ctor x] to a list for every item [x]; an
    exception from [ctor] leaves the loop. *)
Fixpoint append_each {A : Type} (ctor : jvalue -> result A)
    (acc : list A) (items : list jvalue) : result (list A) :=
  match items with
  | [] => Ok acc
  | x :: rest =>
      match ctor x with
      | Ok a => append_each ctor (acc ++ [a]) rest
      | Err e => Err e
      end
  end.

(** The same loop inside [try: ... except KeyError: pass]: a [KeyError]
    ends the loop and keeps what was appended so far; any other exception
    propagates. *)
Fixpoint append_each_until_KeyError {A : Type} (ctor : jvalue -> result A)
    (acc : list A) (items : list jvalue) : result (list A) :=
  match items with
  | [] => Ok acc
  | x :: rest =>
      match ctor x with
      | Ok a => append_each_until_KeyError ctor (acc ++ [a]) rest
      | Err (KeyError _) => Ok acc
      | Err e => Err e
      end
  end.

End Py.

(** ** Domain model (lines 20-125) *)

Module TinybeansUser.

Record t : Type := mk {
  id : jvalue;
  email_address : jvalue;
  first_name : jvalue;
  last_name : jvalue;
  username : jvalue
}.

Definition __init__ (data : jvalue) : result t :=
  (id <- Py.getitem data "id" ;;
   email_address <- Py.getitem data "emailAddress" ;;
   first_name <- Py.getitem data "firstName" ;;
   last_name <- Py.getitem data "lastName" ;;
   username <- Py.getitem data "username" ;;
   Ok (mk id email_address first_name last_name username))%R.

End TinybeansUser.

(** A journal as a child refers to it.  The source's [TinybeanJournal]
    also lists its children, each of which points back to it; the methods
    modelled here only read [child.journal.id]. *)
Module TinybeanJournal.

Record t : Type := mk {
  id : jvalue;
  title : jvalue
}.

End TinybeanJournal.

Module TinybeanChild.

Record t : Type := mk {
  id : jvalue;
  first_name : jvalue;
  last_name : jvalue;
  gender : jvalue;
  date_of_birth : Z * Z * Z;
  journal : TinybeanJournal.t
}.

End TinybeanChild.

Module MediaItem.

(** [file] is the [Path], kept as its [as_posix()] string. *)
Record t : Type := mk {
  day : Z;
  month : Z;
  year : Z;
  file : string;
  children : list TinybeanChild.t
}.

End MediaItem.

Module TinybeanComment.

Record t : Type := mk {
  id : jvalue;
  text : jvalue;
  user : TinybeansUser.t
}.

Definition __init__ (data : jvalue) : result t :=
  (id <- Py.getitem data "id" ;;
   text <- Py.getitem data "details" ;;
   u <- Py.getitem data "user" ;;
   user <- TinybeansUser.__init__ u ;;
   Ok (mk id text user))%R.

End TinybeanComment.

Module TinybeanEmotion.

Record t : Type := mk {
  id : jvalue;
  entry_id : jvalue;
  user_id : jvalue;
  type : jvalue
}.

Definition __init__ (data : jvalue) : result t :=
  (id <- Py.getitem data "id" ;;
   entry_id <- Py.getitem data "entryId" ;;
   user_id <- Py.getitem data "userId" ;;
   ty <- Py.getitem data "type" ;;
   label <- Py.getitem ty "label" ;;
   Ok (mk id entry_id user_id label))%R.

End TinybeanEmotion.

Module TinybeanEntry.

(** [video_url] is an attribute only video entries have. *)
Record t : Type := mk {
  _data : jvalue;
  id : jvalue;
  uuid : jvalue;
  deleted : jvalue;
  type : jvalue;
  video_url : option jvalue;
  latitude : jvalue;
  longitude : jvalue;
  caption : jvalue;
  blobs : jvalue;
  emotions : list TinybeanEmotion.t;
  comments : list TinybeanComment.t
}.

(** Lines 81-85. *)
Definition init_type (data : jvalue) : result (jvalue * option jvalue) :=
  (attachment <- Py.get data "attachmentType" ;;
   if Py.eq_str attachment "VIDEO"
   then (video_url <- Py.getitem data "attachmentUrl_mp4" ;;
         Ok (JStr "VIDEO", Some video_url))
   else (ty <- Py.getitem data "type" ;;
         Ok (ty, None)))%R.

(** Lines 87-92: one [try] around both reads. *)
Definition init_location (data : jvalue) : result (jvalue * jvalue) :=
  match (latitude <- Py.getitem data "latitude" ;;
         longitude <- Py.getitem data "longitude" ;;
         Ok (latitude, longitude))%R with
  | Err (KeyError _) => Ok (JNull, JNull)
  | r => r
  end.

(** Lines 96-102 and 104-110: [data[key]], the [iter] of it and the loop
    body all sit inside the [try]. *)
Definition init_list {A : Type} (ctor : jvalue -> result A)
    (data : jvalue) (key : string) : result (list A) :=
  match Py.getitem data key with
  | Err (KeyError _) => Ok []
  | Err e => Err e
  | Ok v =>
      match Py.iterate v with
      | Err (KeyError _) => Ok []
      | Err e => Err e
      | Ok items => Py.append_each_until_KeyError ctor [] items
      end
  end.

Definition __init__ (data : jvalue) : result t :=
  (id <- Py.getitem data "id" ;;
   uuid <- Py.getitem data "uuid" ;;
   deleted <- Py.getitem data "deleted" ;;
   ty <- init_type data ;;
   loc <- init_location data ;;
   caption <- Py.getitem data "caption" ;;
   blobs <- Py.getitem data "blobs" ;;
   emotions <- init_list TinybeanEmotion.__init__ data "emotions" ;;
   comments <- init_list TinybeanComment.__init__ data "comments" ;;
   Ok (mk data id uuid deleted ty.1 ty.2 loc.1 loc.2 caption blobs
          emotions comments))%R.

End TinybeanEntry.

(** ** The outside world *)

Module Request.

(** One call of [requests.Session.request], with the keyword arguments
    [_api] passes; [headers] is absent when no token is held. *)
Record t : Type := mk {
  method : string;
  url : string;
  params : option (list (string * jvalue));
  json : option jvalue;
  headers : option (list (string * jvalue))
}.

End Request.

Module Response.

(** [body] is [None] when the payload is not JSON. *)
Record t : Type := mk {
  status_code : Z;
  body : option jvalue
}.

(** [response.json()]. *)
Definition json (r : t) : result jvalue :=
  match body r with
  | Some v => Ok v
  | None => Err JSONDecodeError
  end.

End Response.

Module S3Client.

(** The client [boto3.client('s3', ...)] builds at lines 137-138. *)
Record t : Type := mk {
  aws_access_key_id : jvalue;
  aws_secret_access_key : jvalue;
  aws_session_token : jvalue;
  region_name : string
}.

End S3Client.

Module UploadCall.

Record t : Type := mk {
  client : S3Client.t;
  Filename : string;
  Bucket : string;
  Key : string
}.

End UploadCall.

Module UploadOutcome.

(** What one [upload_file] call does: the byte counts it reports to the
    progress callback, and the exception it ends with, if any.  An
    exception of the callback itself (its percentage divides by the file
    size) surfaces, if at all, through [upload_file] and is part of
    [raised]. *)
Record t : Type := mk {
  progress : list Z;
  raised : option exn
}.

End UploadOutcome.

(** The effects a run leaves behind, oldest first. *)
Inductive Event : Type :=
  | EvRequest (r : Request.t)
  | EvGetCredentials (identity_id : string)
  | EvUploadFile (c : UploadCall.t).

(** Everything the client calls and does not define.  The remote parties
    answer as a function of the history so far, so a server may depend on
    earlier requests and on the cursor it is sent.

    - [urljoin] and [str] are the library functions of those names
      ([str] also stands for the formatting of [%s] and of f-string
      fields);
    - [clock_us] is the UTC time in microseconds since the epoch and
      [utc_offset] the local zone's offset from UTC in seconds
      (east positive). *)
Module Env.

Record t : Type := mk {
  urljoin : string -> string -> string;
  str : jvalue -> string;
  session_request : list Event -> Request.t -> result Response.t;
  get_credentials_for_identity : list Event -> string -> result jvalue;
  upload_file : list Event -> UploadCall.t -> UploadOutcome.t;
  stat_st_size : list Event -> string -> result Z;
  uuid4 : nat -> string;
  environ : gmap string string;
  clock_us : list Event -> Z;
  utc_offset : Z
}.

End Env.

(** The attributes of a [PyTinybeans] instance.  [_access_token] is
    [None] ([JNull]) until [login] stores one; [user] and [bytes_uploaded]
    do not exist before their first assignment. *)
Module Self.

Record t : Type := mk {
  _access_token : jvalue;
  user : option TinybeansUser.t;
  bytes_uploaded : option Z
}.

(** Lines 148-150. *)
Definition __init__ : t := mk JNull None None.

End Self.

Module World.

Record t : Type := mk {
  self : Self.t;
  trace : list Event;
  error_log : list exn;
  uuids_drawn : nat
}.

Definition init : t := mk Self.__init__ [] [] 0%nat.

Definition with_self (f : Self.t -> Self.t) (w : t) : t :=
  mk (f (self w)) (trace w) (error_log w) (uuids_drawn w).

Definition emit (ev : Event) (w : t) : t :=
  mk (self w) (trace w ++ [ev]) (error_log w) (uuids_drawn w).

Definition requests (tr : list Event) : list Request.t :=
  omap (fun ev => match ev with EvRequest r => Some r | _ => None end) tr.

Definition uploads (tr : list Event) : list UploadCall.t :=
  omap (fun ev => match ev with EvUploadFile c => Some c | _ => None end) tr.

Definition credential_exchanges (tr : list Event) : list string :=
  omap (fun ev => match ev with EvGetCredentials i => Some i | _ => None end) tr.

End World.

(** ** Effectful evaluation *)

Inductive outcome (A : Type) : Type :=
  | Returns (a : A)
  | Raises (e : exn)
  | OutOfFuel.
Arguments Returns {A} a.
Arguments Raises {A} e.
Arguments OutOfFuel {A}.

Definition M (A : Type) : Type := World.t -> outcome A * World.t.

Definition ret {A : Type} (a : A) : M A := fun w => (Returns a, w).

Definition raise {A : Type} (e : exn) : M A := fun w => (Raises e, w).

Definition bind {A B : Type} (m : M A) (k : A -> M B) : M B :=
  fun w =>
    match m w with
    | (Returns a, w') => k a w'
    | (Raises e, w') => (Raises e, w')
    | (OutOfFuel, w') => (OutOfFuel, w')
    end.

Definition lift {A : Type} (r : result A) : M A :=
  match r with
  | Ok a => ret a
  | Err e => raise e
  end.

(** [try: body except Exception as err: handler(err)]. *)
Definition try_except {A : Type} (body : M A) (handler : exn -> M A) : M A :=
  fun w =>
    match body w with
    | (Raises e, w') => handler e w'
    | r => r
    end.

(** Proof step: evaluate the pure computation at the head of the goal,
    naming its value. *)
Tactic Notation "step_lift" "as" ident(x) :=
  match goal with
  | |- context [lift ?r ?w] =>
      destruct r as [x|?]; cbn [lift]; cbv [ret raise]
  end.

Declare Scope M_scope.
Delimit Scope M_scope with M.
Notation "x <- m ;; k" := (bind m (fun x => k))
  (at level 100, m at next level, right associativity) : M_scope.

Fixpoint for_each {A : Type} (body : A -> M unit) (items : list A) : M unit :=
  match items with
  | [] => ret tt
  | x :: rest => (_ <- body x ;; for_each body rest)%M
  end.

(** [enumerate(items)], counting from [i]. *)
Fixpoint enumerate_from {A : Type} (i : Z) (items : list A) : list (Z * A) :=
  match items with
  | [] => []
  | x :: rest => (i, x) :: enumerate_from (i + 1) rest
  end.

Definition IOS_CLIENT_ID : string := "13bcd503-2137-9085-a437-d9f2ac9281a1".

(** ** The client (lines 128-302) *)

Section Client.

Variable env : Env.t.

(** *** Primitive effects *)

Definition get_self : M Self.t := fun w => (Returns (World.self w), w).

Definition set_access_token (v : jvalue) : M unit :=
  fun w =>
    (Returns tt,
     World.with_self
       (fun s => Self.mk v (Self.user s) (Self.bytes_uploaded s)) w).

Definition set_user (u : TinybeansUser.t) : M unit :=
  fun w =>
    (Returns tt,
     World.with_self
       (fun s => Self.mk (Self._access_token s) (Some u) (Self.bytes_uploaded s))
       w).

Definition set_bytes_uploaded (n : Z) : M unit :=
  fun w =>
    (Returns tt,
     World.with_self
       (fun s => Self.mk (Self._access_token s) (Self.user s) (Some n)) w).

(** [self.session.request(...)]. *)
Definition session_request (req : Request.t) : M Response.t :=
  fun w =>
    (match Env.session_request env (World.trace w) req with
     | Ok resp => Returns resp
     | Err e => Raises e
     end,
     World.emit (EvRequest req) w).

(** [client.get_credentials_for_identity(IdentityId=identity_id)]. *)
Definition get_credentials_for_identity (identity_id : string) : M jvalue :=
  fun w =>
    (match Env.get_credentials_for_identity env (World.trace w) identity_id with
     | Ok credentials => Returns credentials
     | Err e => Raises e
     end,
     World.emit (EvGetCredentials identity_id) w).

(** [os.environ[name]]. *)
Definition os_environ (name : string) : M string :=
  match Env.environ env !! name with
  | Some v => ret v
  | None => raise (KeyError (JStr name))
  end.

(** The callback of lines 224-226 adds every reported byte count to
    [self.bytes_uploaded]. *)
Definition callback (numBytesProgress : Z) (s : Self.t) : Self.t :=
  Self.mk (Self._access_token s) (Self.user s)
    (Some (default 0 (Self.bytes_uploaded s) + numBytesProgress)).

(** [s3.upload_file(Filename=.., Bucket=.., Key=.., Callback=callback)]. *)
Definition upload_file (call : UploadCall.t) : M unit :=
  fun w =>
    let out := Env.upload_file env (World.trace w) call in
    let w' :=
      World.with_self
        (fun s => fold_left (fun s n => callback n s) (UploadOutcome.progress out) s)
        (World.emit (EvUploadFile call) w) in
    (match UploadOutcome.raised out with
     | Some e => Raises e
     | None => Returns tt
     end,
     w').

(** [logging.error(err)]. *)
Definition logging_error (err : exn) : M unit :=
  fun w =>
    (Returns tt,
     World.mk (World.self w) (World.trace w) (World.error_log w ++ [err])
       (World.uuids_drawn w)).

(** [str(uuid.uuid4())]. *)
Definition uuid4_str : M string :=
  fun w =>
    (Returns (Env.uuid4 env (World.uuids_drawn w)),
     World.mk (World.self w) (World.trace w) (World.error_log w)
       (S (World.uuids_drawn w))).

(** [path.stat().st_size]. *)
Definition stat_st_size (path : string) : M Z :=
  fun w => lift (Env.stat_st_size env (World.trace w) path) w.

(** *** The clock (lines 272-279)

    [datetime.utcnow()] is a naive datetime carrying the UTC calendar
    fields; it is kept as the microseconds between 1970-01-01T00:00:00
    and those fields.  [timetuple()] drops the microseconds.
    [time.mktime] is the inverse of [time.localtime]: it reads its
    argument as local time, so the epoch second it returns is the
    argument minus the zone's offset.  It returns a whole number of
    seconds as a float; the product with 1000 and [int] are exact at
    these magnitudes. *)
Definition utcnow : M Z := fun w => (Returns (Env.clock_us env (World.trace w)), w).

Definition timetuple (naive_us : Z) : Z := naive_us / 1000000.

Definition mktime (local_s : Z) : Z := local_s - Env.utc_offset env.

Definition default_last : M jvalue :=
  (now <- utcnow ;;
   ret (JInt (mktime (timetuple (now - 0)) * 1000)))%M.

(** *** [s3_client] (lines 128-141)

    The context manager yields once and does nothing on exit, so
    [with s3_client() as s3: body] is [s3 <- s3_client ;; body].
    [boto3.set_stream_logger] and the two [boto3.client] constructors are
    taken to return; the identity exchange is the call that reaches the
    network. *)
Definition s3_client : M S3Client.t :=
  (identity_id <- os_environ "IDENTITY_ID" ;;
   credentials <- get_credentials_for_identity identity_id ;;
   access_key_id <-
     lift (c <- Py.getitem credentials "Credentials" ;;
           Py.getitem c "AccessKeyId")%R ;;
   secret_access_key <-
     lift (c <- Py.getitem credentials "Credentials" ;;
           Py.getitem c "SecretKey")%R ;;
   session_token <-
     lift (c <- Py.getitem credentials "Credentials" ;;
           Py.getitem c "SessionToken")%R ;;
   ret (S3Client.mk access_key_id secret_access_key session_token "us-west-2"))%M.

(** *** [PyTinybeans] *)

Definition API_BASE_URL : string := "https://tinybeans.com/api/1/".
Definition CLIENT_ID : string := IOS_CLIENT_ID.

(** Lines 152-169. *)
Definition _api (path : string) (params : option (list (string * jvalue)))
    (json : option jvalue) (method : string) : M Response.t :=
  (let url := Env.urljoin env API_BASE_URL path in
   self <- get_self ;;
   if Py.truthy (Self._access_token self)
   then session_request
          (Request.mk method url params json
             (Some [("authorization", Self._access_token self)]))
   else session_request (Request.mk method url params json None))%M.

(** Lines 171-176. *)
Definition logged_in : M bool :=
  (self <- get_self ;;
   if Py.truthy (Self._access_token self) then ret true else ret false)%M.

(** Lines 178-193. *)
Definition login (username password : string) : M unit :=
  (held <- logged_in ;;
   if held then ret tt
   else
     response <-
       _api "authenticate" None
         (Some (JObj (list_to_map
            [("username", JStr username);
             ("password", JStr password);
             ("clientId", JStr IOS_CLIENT_ID)])))
         "POST" ;;
     token <- lift (b <- Response.json response ;; Py.getitem b "accessToken")%R ;;
     _ <- set_access_token token ;;
     user <- lift (b <- Response.json response ;;
                   u <- Py.getitem b "user" ;;
                   TinybeansUser.__init__ u)%R ;;
     set_user user)%M.

(** Lines 210-213.  The log line is evaluated first and reads
    [entry.blobs['p']]. *)
Definition delete (entry : TinybeanEntry.t) : M unit :=
  (_ <- lift (Py.getitem (TinybeanEntry.blobs entry) "p") ;;
   response <-
     _api ("journals/1572712/entries/" +:+ Env.str env (TinybeanEntry.id entry))
       None None "DELETE" ;;
   ret tt)%M.

(** Lines 229-234 and 237-242: the upload inside its [try]. *)
Definition try_upload (s3 : S3Client.t) (pathToFile destinationFileName : string)
    : M unit :=
  try_except
    (upload_file
       (UploadCall.mk s3 pathToFile "tinybeans-remote-upload-prod"
          destinationFileName))
    (fun err => logging_error err).

(** Lines 248-255. *)
Definition registration_body (mediaItem : MediaItem.t)
    (destinationFileName : string) : jvalue :=
  JObj (list_to_map
    [("day", JInt (MediaItem.day mediaItem));
     ("month", JInt (MediaItem.month mediaItem));
     ("year", JInt (MediaItem.year mediaItem));
     ("children", JList (TinybeanChild.id <$> MediaItem.children mediaItem));
     ("caption", JStr "");
     ("remoteFileName", JStr destinationFileName)]).

(** Lines 215-261.  [index] and [total_items] default to 1 in the source;
    line 243 divides [index] by [total_items]. *)
Definition upload_media (mediaItem : MediaItem.t) (s3Client : option S3Client.t)
    (index total_items : Z) : M unit :=
  (u <- uuid4_str ;;
   let id := Py.upper u in
   let suffix := Py.split_dot_last (MediaItem.file mediaItem) in
   let pathToFile := MediaItem.file mediaItem in
   let destinationFileName := id +:+ "." +:+ suffix in
   file_size <- stat_st_size (MediaItem.file mediaItem) ;;
   _ <- set_bytes_uploaded 0 ;;
   _ <- match s3Client with
        | Some client => try_upload client pathToFile destinationFileName
        | None => (s3 <- s3_client ;; try_upload s3 pathToFile destinationFileName)
        end ;;
   _ <- lift (Py.true_divide index total_items) ;;
   let body := registration_body mediaItem destinationFileName in
   response <- _api "journals/1572712/entries" None (Some body) "POST" ;;
   ret tt)%M.

(** Lines 263-266. *)
Definition upload_medias (mediaItems : list MediaItem.t) : M unit :=
  (s3 <- s3_client ;;
   for_each
     (fun '(index, item) =>
        upload_media item (Some s3) index (Z.of_nat (length mediaItems)))
     (enumerate_from 0 mediaItems))%M.

(** Lines 280-284 and 292-296. *)
Definition fetch_page (child : TinybeanChild.t) (last : jvalue) : M Response.t :=
  _api
    ("journals/"
       +:+ Env.str env (TinybeanJournal.id (TinybeanChild.journal child))
       +:+ "/entries")
    (Some [("clientId", JStr CLIENT_ID); ("fetchSize", JInt 200); ("last", last)])
    None "GET".

(** Lines 285-286 and 299-300. *)
Definition append_page (entries : list TinybeanEntry.t) (response : Response.t)
    : result (list TinybeanEntry.t) :=
  (b <- Response.json response ;;
   page <- Py.getitem b "entries" ;;
   items <- Py.iterate page ;;
   Py.append_each TinybeanEntry.__init__ entries items)%R.

(** Lines 289-300.  One unit of [fuel] pays for one test of the loop
    condition. *)
Fixpoint pagination (fuel : nat) (child : TinybeanChild.t)
    (response : Response.t) (entries : list TinybeanEntry.t)
    : M (list TinybeanEntry.t) :=
  match fuel with
  | O => fun w => (OutOfFuel, w)
  | S fuel' =>
      (more <- lift (b <- Response.json response ;;
                     remaining <- Py.getitem b "numEntriesRemaining" ;;
                     Py.gt0 remaining)%R ;;
       if (more : bool) then
         last <- lift (b <- Response.json response ;;
                       page <- Py.getitem b "entries" ;;
                       first <- Py.getitem0 page ;;
                       Py.getitem first "timestamp")%R ;;
         response' <- fetch_page child last ;;
         present <- lift (b <- Response.json response' ;;
                          Py.contains "entries" b)%R ;;
         entries' <- (if (present : bool)
                      then lift (append_page entries response')
                      else ret entries) ;;
         pagination fuel' child response' entries'
       else ret entries)%M
  end.

(** Line 302. *)
Definition keep (get_deleted_entries : bool) (e : TinybeanEntry.t) : bool :=
  negb (Py.truthy (TinybeanEntry.deleted e)) && negb get_deleted_entries.

(** Lines 268-302. *)
Definition get_entries (fuel : nat) (child : TinybeanChild.t) (last : option Z)
    (get_deleted_entries : bool) : M (list TinybeanEntry.t) :=
  (last <- match last with
           | None => default_last
           | Some l => ret (JInt l)
           end ;;
   response <- fetch_page child last ;;
   entries <- lift (append_page [] response) ;;
   _ <- lift (b <- Response.json response ;;
              Py.getitem b "numEntriesRemaining")%R ;;
   entries <- pagination fuel child response entries ;;
   ret (List.filter (keep get_deleted_entries) entries))%M.

End Client.

(** ** Scripted collaborators

    A mock in the style of a unit test: the HTTP session answers the n-th
    request with the n-th scripted response, whatever the request. *)

Module Mock.

Definition str (v : jvalue) : string :=
  match v with
  | JNull => "None"
  | JBool true => "True"
  | JBool false => "False"
  | JInt z => pretty z
  | JStr s => s
  | JList _ => "[...]"
  | JObj _ => "{...}"
  end.

Definition scripted_session (script : list (result Response.t))
    (history : list Event) (_ : Request.t) : result Response.t :=
  nth (length (World.requests history)) script
    (Err (RemoteError "script exhausted")).

Definition scripted_uploads (script : list UploadOutcome.t)
    (history : list Event) (_ : UploadCall.t) : UploadOutcome.t :=
  nth (length (World.uploads history)) script (UploadOutcome.mk [] None).

Definition credentials : jvalue :=
  JObj {[ "Credentials" :=
            JObj (list_to_map
              [("AccessKeyId", JStr "AKIA");
               ("SecretKey", JStr "secret");
               ("SessionToken", JStr "session")]) ]}.

Definition uuid4 (n : nat) : string := "c0ffee00-0000-4000-8000-00000000000" +:+ pretty n.

(** A host whose files all exist with 1024 bytes, whose identity is
    configured, and whose clock stands at 2023-11-14T22:13:20.123456Z. *)
Definition env (script : list (result Response.t))
    (uploads : list UploadOutcome.t) (utc_offset : Z) : Env.t :=
  Env.mk String.append str
    (scripted_session script)
    (fun _ _ => Ok credentials)
    (scripted_uploads uploads)
    (fun _ _ => Ok 1024)
    uuid4
    {[ "IDENTITY_ID" := "us-east-1:identity" ]}
    (fun _ => 1700000000123456)
    utc_offset.

Definition ok (body : jvalue) : result Response.t :=
  Ok (Response.mk 200 (Some body)).

Definition entry (id : Z) (deleted : bool) (timestamp : Z) : jvalue :=
  JObj (list_to_map
    [("id", JInt id); ("uuid", JStr "u"); ("deleted", JBool deleted);
     ("type", JStr "PHOTO"); ("caption", JStr ""); ("blobs", JObj ∅);
     ("timestamp", JInt timestamp)]).

Definition page (entries : list jvalue) (remaining : Z) : jvalue :=
  JObj (list_to_map
    [("entries", JList entries); ("numEntriesRemaining", JInt remaining)]).

Definition journal : TinybeanJournal.t := TinybeanJournal.mk (JInt 42) (JStr "Family").

Definition child : TinybeanChild.t :=
  TinybeanChild.mk (JInt 7) (JStr "Ada") (JStr "L") (JStr "F") (2019, 5, 1) journal.

End Mock.

(** Authenticate responses. *)
Module MockLogin.

Definition user : jvalue :=
  JObj (list_to_map
    [("id", JInt 9); ("emailAddress", JStr "a@b.c"); ("firstName", JStr "A");
     ("lastName", JStr "B"); ("username", JStr "ab")]).

Definition granted : jvalue :=
  JObj (list_to_map [("accessToken", JStr "tok"); ("user", user)]).

Definition no_token : jvalue := JObj (list_to_map [("user", user)]).

Definition no_user : jvalue := JObj (list_to_map [("accessToken", JStr "tok")]).

Definition partial_user : jvalue :=
  JObj (list_to_map
    [("accessToken", JStr "tok");
     ("user", JObj (list_to_map [("id", JInt 9); ("emailAddress", JStr "a@b.c")]))]).

(** A server that answers every request with [response]. *)
Definition env (response : Response.t) : Env.t := Mock.env [Ok response; Ok response] [] 0.

Definition logged : World.t :=
  World.mk (Self.mk (JStr "tok") None None) [] [] 0%nat.

End MockLogin.

(** Media uploads. *)
Module MockUpload.

Definition client : S3Client.t :=
  S3Client.mk (JStr "AKIA") (JStr "secret") (JStr "session") "us-west-2".

Definition photo : MediaItem.t := MediaItem.mk 1 2 2020 "/tmp/a.b.jpg" [Mock.child].

Definition clip : MediaItem.t := MediaItem.mk 3 4 2021 "/tmp/clip.mp4" [].

Definition failing : UploadOutcome.t :=
  UploadOutcome.mk [10] (Some (RemoteError "upload refused")).

(** The first upload fails, every later one succeeds; every POST is
    answered. *)
Definition env : Env.t :=
  Env.mk String.append Mock.str
    (fun _ _ => Mock.ok JNull)
    (fun _ _ => Ok Mock.credentials)
    (Mock.scripted_uploads [failing])
    (fun _ _ => Ok 1024)
    Mock.uuid4
    {[ "IDENTITY_ID" := "us-east-1:identity" ]}
    (fun _ => 1700000000123456)
    0.

End MockUpload.

(** Paginated journals. *)
Module MockPages.

(** The entry [TinybeanEntry(Mock.entry id deleted timestamp)] builds. *)
Definition parsed (id : Z) (deleted : bool) (timestamp : Z) : TinybeanEntry.t :=
  TinybeanEntry.mk (Mock.entry id deleted timestamp) (JInt id) (JStr "u")
    (JBool deleted) (JStr "PHOTO") None JNull JNull (JStr "") (JObj ∅) [] [].

(** Three pages with counts 400, 200, 0; the entry of the second page is
    deleted. *)
Definition three_pages : list (result Response.t) :=
  [Mock.ok (Mock.page [Mock.entry 1 false 300] 400);
   Mock.ok (Mock.page [Mock.entry 2 true 200] 200);
   Mock.ok (Mock.page [Mock.entry 3 false 100] 0)].

(** One page with a live entry and nothing remaining. *)
Definition one_page : list (result Response.t) :=
  [Mock.ok (Mock.page [Mock.entry 1 false 300] 0)].

(** A payload that reports a count and carries no [entries]. *)
Definition without_entries (remaining : Z) : jvalue :=
  JObj (list_to_map [("numEntriesRemaining", JInt remaining)]).

Definition env (script : list (result Response.t)) : Env.t := Mock.env script [] 0.

End MockPages.

(** ** Vocabulary of the statements *)

(** The request [_api] sends for a client in state [self]. *)
Definition api_request (env : Env.t) (self : Self.t) (path : string)
    (params : option (list (string * jvalue))) (json : option jvalue)
    (method : string) : Request.t :=
  Request.mk method (Env.urljoin env API_BASE_URL path) params json
    (if Py.truthy (Self._access_token self)
     then Some [("authorization", Self._access_token self)]
     else None).

Definition authenticate_request (env : Env.t) (self : Self.t)
    (username password : string) : Request.t :=
  api_request env self "authenticate" None
    (Some (JObj (list_to_map
       [("username", JStr username);
        ("password", JStr password);
        ("clientId", JStr IOS_CLIENT_ID)])))
    "POST".

Definition page_request (env : Env.t) (self : Self.t) (child : TinybeanChild.t)
    (last : jvalue) : Request.t :=
  api_request env self
    ("journals/"
       +:+ Env.str env (TinybeanJournal.id (TinybeanChild.journal child))
       +:+ "/entries")
    (Some [("clientId", JStr CLIENT_ID); ("fetchSize", JInt 200); ("last", last)])
    None "GET".

Definition delete_request (env : Env.t) (self : Self.t) (entry : TinybeanEntry.t)
    : Request.t :=
  api_request env self
    ("journals/1572712/entries/" +:+ Env.str env (TinybeanEntry.id entry))
    None None "DELETE".

(** The object key [upload_media] derives from its [n]-th uuid. *)
Definition remote_file_name (env : Env.t) (n : nat) (mediaItem : MediaItem.t)
    : string :=
  Py.upper (Env.uuid4 env n) +:+ "." +:+ Py.split_dot_last (MediaItem.file mediaItem).

Definition upload_call (s3 : S3Client.t) (mediaItem : MediaItem.t) (key : string)
    : UploadCall.t :=
  UploadCall.mk s3 (MediaItem.file mediaItem) "tinybeans-remote-upload-prod" key.

Definition registration_request (env : Env.t) (self : Self.t)
    (mediaItem : MediaItem.t) (key : string) : Request.t :=
  api_request env self "journals/1572712/entries" None
    (Some (registration_body mediaItem key)) "POST".

(** The state [upload_media] reaches before it touches the object store:
    one uuid drawn, the byte counter reset. *)
Definition upload_prelude (w : World.t) : World.t :=
  World.mk
    (Self.mk (Self._access_token (World.self w)) (Self.user (World.self w)) (Some 0))
    (World.trace w) (World.error_log w) (S (World.uuids_drawn w)).

(** What a batch of uploads leaves in the trace when every item goes
    through: per item, in order, its upload and then its registration. *)
Fixpoint batch_events (env : Env.t) (self : Self.t) (s3 : S3Client.t) (n : nat)
    (mediaItems : list MediaItem.t) : list Event :=
  match mediaItems with
  | [] => []
  | item :: rest =>
      let key := remote_file_name env n item in
      EvUploadFile (upload_call s3 item key)
        :: EvRequest (registration_request env self item key)
        :: batch_events env self s3 (S n) rest
  end.

(** A page payload: a JSON object with an [entries] list and an integer
    [numEntriesRemaining]. *)
Definition is_page (response : Response.t) (items : list jvalue) (remaining : Z)
    : Prop :=
  exists m : gmap string jvalue,
    Response.body response = Some (JObj m)
    /\ m !! "entries" = Some (JList items)
    /\ m !! "numEntriesRemaining" = Some (JInt remaining).

(** Every record of [items] constructs, giving [entries] in order. *)
Definition parse_to (items : list jvalue) (entries : list TinybeanEntry.t) : Prop :=
  Forall2 (fun x e => TinybeanEntry.__init__ x = Ok e) items entries.

(** [items[0]["timestamp"]]. *)
Definition first_timestamp (items : list jvalue) : result jvalue :=
  (first <- Py.getitem0 (JList items) ;; Py.getitem first "timestamp")%R.

(** The cursor of the first request. *)
Definition first_cursor (env : Env.t) (w : World.t) (last : option Z) : jvalue :=
  match last with
  | Some l => JInt l
  | None => JInt ((Env.clock_us env (World.trace w) / 1000000 - Env.utc_offset env) * 1000)
  end.

Definition not_deleted (e : TinybeanEntry.t) : bool :=
  negb (Py.truthy (TinybeanEntry.deleted e)).

(** The filter as the specification words it: keep an entry unless it is
    deleted and deleted entries were not asked for.  To be compared with
    [keep], the filter of line 302. *)
Definition keep_as_specified (get_deleted_entries : bool) (e : TinybeanEntry.t)
    : bool :=
  negb (Py.truthy (TinybeanEntry.deleted e)) || get_deleted_entries.

Definition user_fields : list string :=
  ["id"; "emailAddress"; "firstName"; "lastName"; "username"].

(** An optional list field of an entry record: left out, or a list whose
    elements all construct. *)
Definition optional_list {A : Type} (ctor : jvalue -> result A)
    (m : gmap string jvalue) (key : string) (parsed : list A) : Prop :=
  (m !! key = None /\ parsed = [])
  \/ (exists items, m !! key = Some (JList items)
                   /\ Forall2 (fun x a => ctor x = Ok a) items parsed).

(** The value of [latitude] and [longitude] after lines 87-92. *)
Definition location_of (m : gmap string jvalue) : jvalue * jvalue :=
  match m !! "latitude", m !! "longitude" with
  | Some lat, Some lon => (lat, lon)
  | _, _ => (JNull, JNull)
  end.

(** A conversation that starts with [response] in hand at history [tr]:
    the requests the client goes on to send and the entries the answers
    carry.  It ends at the first page whose count is not positive. *)
Inductive serves (env : Env.t) (self : Self.t) (child : TinybeanChild.t)
    : list Event -> Response.t -> list Request.t -> list TinybeanEntry.t -> Prop :=
  | serves_done tr response m remaining :
      Response.body response = Some (JObj m) ->
      m !! "numEntriesRemaining" = Some (JInt remaining) ->
      remaining <= 0 ->
      serves env self child tr response [] []
  | serves_more tr response items remaining cursor response' items' remaining'
      parsed' requests entries :
      is_page response items remaining ->
      0 < remaining ->
      first_timestamp items = Ok cursor ->
      Env.session_request env tr (page_request env self child cursor) = Ok response' ->
      is_page response' items' remaining' ->
      parse_to items' parsed' ->
      serves env self child (tr ++ [EvRequest (page_request env self child cursor)])
        response' requests entries ->
      serves env self child tr response
        (page_request env self child cursor :: requests) (parsed' ++ entries).

Definition with_trace (tr : list Event) (w : World.t) : World.t :=
  World.mk (World.self w) tr (World.error_log w) (World.uuids_drawn w).

(** The client holds a token: what [logged_in] tests. *)
Definition holds_token (w : World.t) : bool :=
  Py.truthy (Self._access_token (World.self w)).

(** ** Followings (lines 29-62 and 195-208)

    [datetime.strptime] is the library function of that name, applied to
    [data["dob"]] and the format; it is a parameter here, returning the
    year, month and day of the midnight it parses. *)

(** A [TinybeanJournal] as its constructor leaves it: the journal and the
    children it owns, each pointing back to it. *)
Module TinybeanJournalFull.

Record t : Type := mk {
  journal : TinybeanJournal.t;
  children : list TinybeanChild.t
}.

End TinybeanJournalFull.

Module TinybeanFollowing.

Record t : Type := mk {
  id : jvalue;
  url : jvalue;
  relationship : jvalue;
  journal : TinybeanJournalFull.t
}.

End TinybeanFollowing.

Section Followings.

Variable strptime : jvalue -> string -> result (Z * Z * Z).

(** Lines 48-55. *)
Definition TinybeanChild__init__ (journal : TinybeanJournal.t) (data : jvalue)
    : result TinybeanChild.t :=
  (id <- Py.getitem data "id" ;;
   first_name <- Py.getitem data "firstName" ;;
   last_name <- Py.getitem data "lastName" ;;
   gender <- Py.getitem data "gender" ;;
   dob <- Py.getitem data "dob" ;;
   date_of_birth <- strptime dob "%Y-%m-%d" ;;
   Ok (TinybeanChild.mk id first_name last_name gender date_of_birth journal))%R.

(** Lines 38-44. *)
Definition TinybeanJournal__init__ (data : jvalue) : result TinybeanJournalFull.t :=
  (id <- Py.getitem data "id" ;;
   title <- Py.getitem data "title" ;;
   let self := TinybeanJournal.mk id title in
   records <- Py.getitem data "children" ;;
   items <- Py.iterate records ;;
   children <- Py.append_each (TinybeanChild__init__ self) [] items ;;
   Ok (TinybeanJournalFull.mk self children))%R.

(** Lines 30-34. *)
Definition TinybeanFollowing__init__ (data : jvalue) : result TinybeanFollowing.t :=
  (id <- Py.getitem data "id" ;;
   url <- Py.getitem data "URL" ;;
   relationship <- (r <- Py.getitem data "relationship" ;; Py.getitem r "label") ;;
   j <- Py.getitem data "journal" ;;
   journal <- TinybeanJournal__init__ j ;;
   Ok (TinybeanFollowing.mk id url relationship journal))%R.

Variable env : Env.t.

(** Lines 195-200, run to exhaustion as [children] runs it: the request
    is sent and every following is constructed, in order. *)
Definition get_followings : M (list TinybeanFollowing.t) :=
  (response <- _api env "followings" (Some [("clientId", JStr CLIENT_ID)]) None "GET" ;;
   lift (b <- Response.json response ;;
         records <- Py.getitem b "followings" ;;
         items <- Py.iterate records ;;
         Py.append_each TinybeanFollowing__init__ [] items)%R)%M.

(** Lines 202-208: [children.extend(following.journal.children)] for
    every following. *)
Definition children : M (list TinybeanChild.t) :=
  (followings <- get_followings ;;
   ret (fold_left
          (fun acc following =>
             acc ++ TinybeanJournalFull.children (TinybeanFollowing.journal following))
          followings []))%M.

End Followings.

(** A date parser for the examples: it knows one date. *)
Module MockFollowings.

Definition strptime (v : jvalue) (format : string) : result (Z * Z * Z) :=
  match v with
  | JStr s => if String.eqb s "2019-05-01" then Ok (2019, 5, 1) else Err TypeError
  | _ => Err TypeError
  end.

Definition child_record (id : Z) : jvalue :=
  JObj (list_to_map
    [("id", JInt id); ("firstName", JStr "Ada"); ("lastName", JStr "L");
     ("gender", JStr "F"); ("dob", JStr "2019-05-01")]).

Definition journal_record (id : Z) (children : list jvalue) : jvalue :=
  JObj (list_to_map
    [("id", JInt id); ("title", JStr "Family"); ("children", JList children)]).

Definition following_record (id : Z) (journal : jvalue) : jvalue :=
  JObj (list_to_map
    [("id", JInt id); ("URL", JStr "/f"); ("relationship", JObj {[ "label" := JStr "Parent" ]});
     ("journal", journal)]).

Definition followings : jvalue :=
  JObj {[ "followings" :=
            JList [following_record 1 (journal_record 10 [child_record 100; child_record 101]);
                   following_record 2 (journal_record 20 [child_record 200])] ]}.

End MockFollowings.

(** Reactions. *)
Module MockEmotions.

Definition emotion (id : Z) : jvalue :=
  JObj (list_to_map
    [("id", JInt id); ("entryId", JInt 1); ("userId", JInt 9);
     ("type", JObj {[ "label" := JStr "LOVE" ]})]).

Definition parsed (id : Z) : TinybeanEmotion.t :=
  TinybeanEmotion.mk (JInt id) (JInt 1) (JInt 9) (JStr "LOVE").

(** A reaction without its [userId]. *)
Definition broken : jvalue :=
  JObj (list_to_map [("id", JInt 2); ("entryId", JInt 1)]).

End MockEmotions.

(** A batch against an API that answers one request and then fails. *)
Module MockBatch.

Definition env : Env.t :=
  Env.mk String.append Mock.str
    (Mock.scripted_session [Mock.ok JNull])
    (fun _ _ => Ok Mock.credentials)
    (fun _ _ => UploadOutcome.mk [] None)
    (fun _ _ => Ok 1024)
    Mock.uuid4
    {[ "IDENTITY_ID" := "us-east-1:identity" ]}
    (fun _ => 1700000000123456)
    0.

End MockBatch.

(** Entry records of special shape. *)
Module MockEntries.

(** A video whose own [type] field says PHOTO. *)
Definition video : gmap string jvalue :=
  list_to_map
    [("id", JInt 5); ("uuid", JStr "u"); ("deleted", JBool false);
     ("attachmentType", JStr "VIDEO"); ("attachmentUrl_mp4", JStr "https://v/5.mp4");
     ("type", JStr "PHOTO"); ("caption", JStr ""); ("blobs", JObj ∅)].

(** A record without its caption. *)
Definition captionless : gmap string jvalue :=
  list_to_map
    [("id", JInt 6); ("uuid", JStr "u"); ("deleted", JBool false);
     ("type", JStr "PHOTO"); ("blobs", JObj ∅)].

End MockEntries.

(** ** More vocabulary *)

(** [s] contains a dot. *)
Fixpoint has_dot (s : string) : bool :=
  match s with
  | EmptyString => false
  | String c s' => Ascii.eqb c "."%char || has_dot s'
  end.

(** The fields an entry record must carry whatever its kind. *)
Definition entry_required_fields : list string :=
  ["id"; "uuid"; "deleted"; "caption"; "blobs"].

(** The request [get_followings] sends. *)
Definition followings_request (env : Env.t) (self : Self.t) : Request.t :=
  api_request env self "followings" (Some [("clientId", JStr CLIENT_ID)]) None "GET".

(** A request is a page fetch for [child]: a GET on the entries of the
    child's own journal, asking for 200 entries up to some cursor. *)
Definition is_page_fetch (env : Env.t) (child : TinybeanChild.t) (r : Request.t)
    : Prop :=
  Request.method r = "GET"
  /\ Request.url r
     = Env.urljoin env API_BASE_URL
         ("journals/"
            +:+ Env.str env (TinybeanJournal.id (TinybeanChild.journal child))
            +:+ "/entries")
  /\ Request.json r = None
  /\ exists last,
       Request.params r
       = Some [("clientId", JStr CLIENT_ID); ("fetchSize", JInt 200); ("last", last)].

(** ** Vocabulary of the batch and of deletion *)

(** The batch goes through from history [tr]: when its turn comes, each
    item's file can be read and its registration is answered.  Nothing is
    asked of other files, other requests or other histories. *)
Fixpoint batch_answered (env : Env.t) (self : Self.t) (s3 : S3Client.t) (n : nat)
    (tr : list Event) (mediaItems : list MediaItem.t) : Prop :=
  match mediaItems with
  | [] => True
  | item :: rest =>
      let key := remote_file_name env n item in
      let upload := EvUploadFile (upload_call s3 item key) in
      let post := registration_request env self item key in
      (exists size, Env.stat_st_size env tr (MediaItem.file item) = Ok size)
      /\ (exists response, Env.session_request env (tr ++ [upload]) post = Ok response)
      /\ batch_answered env self s3 (S n) (tr ++ [upload; EvRequest post]) rest
  end.

(** A host on which the two files of the batch exist and nothing else
    does, and an API that answers registrations only. *)
Module MockDisk.

Definition stat_st_size (_ : list Event) (path : string) : result Z :=
  if String.eqb path "/tmp/a.b.jpg" then Ok 1024
  else if String.eqb path "/tmp/clip.mp4" then Ok 2048
  else Err (OSError "No such file or directory").

Definition session_request (_ : list Event) (r : Request.t) : result Response.t :=
  if String.eqb (Request.method r) "POST" then Mock.ok JNull
  else Err (RemoteError "connection refused").

Definition env : Env.t :=
  Env.mk String.append Mock.str session_request
    (fun _ _ => Ok Mock.credentials)
    (Mock.scripted_uploads [MockUpload.failing])
    stat_st_size
    Mock.uuid4
    {[ "IDENTITY_ID" := "us-east-1:identity" ]}
    (fun _ => 1700000000123456)
    0.

End MockDisk.

(** An entry that can be deleted: its blobs carry ['p']. *)
Module MockDelete.

Definition entry : TinybeanEntry.t :=
  TinybeanEntry.mk JNull (JInt 77) (JStr "u") (JBool false) (JStr "PHOTO") None
    JNull JNull (JStr "") (JObj {[ "p" := JStr "https://img/77.jpg" ]}) [] [].

End MockDelete.

(** ** Subscripts and loops *)

Lemma getitem_Some (m : gmap string jvalue) (k : string) (v : jvalue) :
  m !! k = Some v -> Py.getitem (JObj m) k = Ok v.
Proof. intros H. unfold Py.getitem. by rewrite H. Qed.

Lemma getitem_None (m : gmap string jvalue) (k : string) :
  m !! k = None -> Py.getitem (JObj m) k = Err (KeyError (JStr k)).
Proof. intros H. unfold Py.getitem. by rewrite H. Qed.

Lemma append_each_until_KeyError_all {A : Type} (ctor : jvalue -> result A)
    (items : list jvalue) (parsed : list A) :
  Forall2 (fun x a => ctor x = Ok a) items parsed ->
  forall acc, Py.append_each_until_KeyError ctor acc items = Ok (acc ++ parsed).
Proof.
  induction 1 as [|x a items parsed Hx _ IH]; intros acc; simpl.
  - by rewrite app_nil_r.
  - rewrite Hx, IH, <- app_assoc. reflexivity.
Qed.

Lemma append_each_all {A : Type} (ctor : jvalue -> result A)
    (items : list jvalue) (parsed : list A) :
  Forall2 (fun x a => ctor x = Ok a) items parsed ->
  forall acc, Py.append_each ctor acc items = Ok (acc ++ parsed).
Proof.
  induction 1 as [|x a items parsed Hx _ IH]; intros acc; simpl.
  - by rewrite app_nil_r.
  - rewrite Hx, IH, <- app_assoc. reflexivity.
Qed.

(** ** Entry construction *)

Lemma init_list_optional {A : Type} (ctor : jvalue -> result A)
    (m : gmap string jvalue) (key : string) (parsed : list A) :
  optional_list ctor m key parsed ->
  TinybeanEntry.init_list ctor (JObj m) key = Ok parsed.
Proof.
  intros [[Hnone ->] | (items & Hsome & Hall)]; unfold TinybeanEntry.init_list.
  - by rewrite (getitem_None _ _ Hnone).
  - rewrite (getitem_Some _ _ _ Hsome). simpl.
    apply (append_each_until_KeyError_all ctor items parsed Hall []).
Qed.

Lemma init_location_total (m : gmap string jvalue) :
  TinybeanEntry.init_location (JObj m) = Ok (location_of m).
Proof.
  unfold TinybeanEntry.init_location, location_of, rbind, Py.getitem.
  destruct (m !! "latitude"); [destruct (m !! "longitude")|]; reflexivity.
Qed.

Lemma location_of_omitted (m : gmap string jvalue) :
  m !! "latitude" = None \/ m !! "longitude" = None ->
  location_of m = (JNull, JNull).
Proof.
  unfold location_of. intros [H | H]; rewrite H; [done|].
  by destruct (m !! "latitude").
Qed.

Lemma optional_list_omitted {A : Type} (ctor : jvalue -> result A)
    (m : gmap string jvalue) (key : string) (parsed : list A) :
  optional_list ctor m key parsed -> m !! key = None -> parsed = [].
Proof. intros [[_ ->] | (items & Hsome & _)] Hnone; congruence. Qed.

(** C10.  A server record that carries the required fields of an entry
    constructs whether or not it carries latitude/longitude, the emotions
    list and the comments list: each of the three may be left out on its
    own.  If latitude or longitude is left out both are [None]; a list
    that is left out is empty; what is present is kept. *)
Theorem entry_init_tolerates_omissions (m : gmap string jvalue)
    (id uuid deleted caption blobs : jvalue) (ty : jvalue * option jvalue)
    (emotions : list TinybeanEmotion.t) (comments : list TinybeanComment.t) :
  m !! "id" = Some id ->
  m !! "uuid" = Some uuid ->
  m !! "deleted" = Some deleted ->
  TinybeanEntry.init_type (JObj m) = Ok ty ->
  m !! "caption" = Some caption ->
  m !! "blobs" = Some blobs ->
  optional_list TinybeanEmotion.__init__ m "emotions" emotions ->
  optional_list TinybeanComment.__init__ m "comments" comments ->
  exists e : TinybeanEntry.t,
    TinybeanEntry.__init__ (JObj m) = Ok e
    /\ e = TinybeanEntry.mk (JObj m) id uuid deleted ty.1 ty.2
             (location_of m).1 (location_of m).2 caption blobs emotions comments
    /\ (m !! "latitude" = None \/ m !! "longitude" = None ->
        TinybeanEntry.latitude e = JNull /\ TinybeanEntry.longitude e = JNull)
    /\ (m !! "emotions" = None -> TinybeanEntry.emotions e = [])
    /\ (m !! "comments" = None -> TinybeanEntry.comments e = []).
Proof.
  intros Hid Huuid Hdel Hty Hcap Hblobs Hem Hcm.
  eexists. split; [|split; [reflexivity|]].
  - unfold TinybeanEntry.__init__.
    rewrite (getitem_Some _ _ _ Hid), (getitem_Some _ _ _ Huuid),
      (getitem_Some _ _ _ Hdel), (getitem_Some _ _ _ Hcap),
      (getitem_Some _ _ _ Hblobs), Hty, init_location_total,
      (init_list_optional _ _ _ _ Hem), (init_list_optional _ _ _ _ Hcm).
    reflexivity.
  - cbn [TinybeanEntry.latitude TinybeanEntry.longitude
         TinybeanEntry.emotions TinybeanEntry.comments].
    split; [|split].
    + intros H. by rewrite (location_of_omitted _ H).
    + apply (optional_list_omitted _ _ _ _ Hem).
    + apply (optional_list_omitted _ _ _ _ Hcm).
Qed.

(** A record with none of the optional fields. *)
Lemma entry_init_tolerates_omissions_witness :
  exists e : TinybeanEntry.t,
    TinybeanEntry.__init__ (Mock.entry 1 false 100) = Ok e
    /\ TinybeanEntry.latitude e = JNull
    /\ TinybeanEntry.longitude e = JNull
    /\ TinybeanEntry.emotions e = []
    /\ TinybeanEntry.comments e = [].
Proof.
  destruct (entry_init_tolerates_omissions
              (list_to_map
                 [("id", JInt 1); ("uuid", JStr "u"); ("deleted", JBool false);
                  ("type", JStr "PHOTO"); ("caption", JStr ""); ("blobs", JObj ∅);
                  ("timestamp", JInt 100)])
              (JInt 1) (JStr "u") (JBool false) (JStr "") (JObj ∅)
              (JStr "PHOTO", None) [] [])
    as (e & He & _ & Hloc & Hem & Hcm);
    try reflexivity; try (left; split; reflexivity).
  exists e. split; [exact He|].
  destruct Hloc as [Hlat Hlon]; [left; reflexivity|].
  split; [exact Hlat|]. split; [exact Hlon|].
  split; [apply Hem | apply Hcm]; reflexivity.
Defined.

(** ** The session wrapper and [login] *)

Lemma requests_snoc (tr : list Event) (r : Request.t) :
  World.requests (tr ++ [EvRequest r]) = World.requests tr ++ [r].
Proof. unfold World.requests. by rewrite omap_app. Qed.

Lemma api_request_token (env : Env.t) (s s' : Self.t) (path : string)
    (params : option (list (string * jvalue))) (json : option jvalue)
    (method : string) :
  Self._access_token s = Self._access_token s' ->
  api_request env s path params json method
  = api_request env s' path params json method.
Proof. intros H. unfold api_request. by rewrite H. Qed.

(** Both branches of [_api] send the request [api_request] describes. *)
Lemma _api_eq (env : Env.t) (path : string)
    (params : option (list (string * jvalue))) (json : option jvalue)
    (method : string) (w : World.t) :
  _api env path params json method w
  = session_request env (api_request env (World.self w) path params json method) w.
Proof.
  cbv [_api bind get_self api_request].
  destruct (Py.truthy (Self._access_token (World.self w))); reflexivity.
Qed.

Lemma login_held (env : Env.t) (username password : string) (w : World.t) :
  holds_token w = true -> login env username password w = (Returns tt, w).
Proof.
  intros H. cbv [login bind logged_in get_self ret].
  unfold holds_token in H. rewrite H. reflexivity.
Qed.

Lemma login_not_held (env : Env.t) (username password : string) (w : World.t) :
  holds_token w = false ->
  login env username password w
  = (response <-
       session_request env
         (authenticate_request env (World.self w) username password) ;;
     token <- lift (b <- Response.json response ;; Py.getitem b "accessToken")%R ;;
     _ <- set_access_token token ;;
     user <- lift (b <- Response.json response ;;
                   u <- Py.getitem b "user" ;;
                   TinybeansUser.__init__ u)%R ;;
     set_user user)%M w.
Proof.
  intros H. unfold holds_token in H.
  cbv [login logged_in get_self]. cbv [bind]. rewrite H.
  cbv [ret]. rewrite _api_eq. reflexivity.
Qed.

(** Without a token, [login] sends one authenticate request, however the
    call ends. *)
Lemma login_not_held_trace (env : Env.t) (username password : string)
    (w : World.t) :
  holds_token w = false ->
  World.trace (login env username password w).2
  = World.trace w
      ++ [EvRequest (authenticate_request env (World.self w) username password)].
Proof.
  intros H. rewrite (login_not_held _ _ _ _ H).
  cbv [bind session_request].
  destruct (Env.session_request env _ _) as [resp|e]; [|reflexivity].
  cbv [lift]. destruct (rbind (Response.json resp) _) as [tok|e]; [|reflexivity].
  cbv [ret raise set_access_token].
  destruct (rbind (Response.json resp) _) as [u|e]; reflexivity.
Qed.

(** C8.  With a token held, [login] returns at once: no request, the
    client untouched, whatever the credentials.  Hence two logins in a
    row from a client without a token, the first of which obtains one,
    send one authenticate request between them. *)
Theorem login_idempotent_while_authenticated (env : Env.t) (w : World.t)
    (username password username' password' : string) :
  (holds_token w = true ->
   login env username password w = (Returns tt, w))
  /\ (holds_token w = false ->
      holds_token (login env username password w).2 = true ->
      let w1 := (login env username password w).2 in
      login env username' password' w1 = (Returns tt, w1)
      /\ World.requests (World.trace (login env username' password' w1).2)
         = World.requests (World.trace w)
             ++ [authenticate_request env (World.self w) username password]).
Proof.
  split; [apply login_held|].
  intros Hw Hw1 w1. subst w1.
  rewrite (login_held _ _ _ _ Hw1). split; [reflexivity|].
  cbn [snd]. rewrite (login_not_held_trace _ _ _ _ Hw). apply requests_snoc.
Qed.

Lemma login_idempotent_while_authenticated_witness :
  login (MockLogin.env (Response.mk 200 (Some MockLogin.granted))) "u2" "p2"
    MockLogin.logged
  = (Returns tt, MockLogin.logged)
  /\ length
       (World.requests
          (World.trace
             (login (MockLogin.env (Response.mk 200 (Some MockLogin.granted)))
                "u2" "p2"
                (login (MockLogin.env (Response.mk 200 (Some MockLogin.granted)))
                   "u" "p" World.init).2).2))
     = 1%nat.
Proof.
  split.
  - destruct (login_idempotent_while_authenticated
                (MockLogin.env (Response.mk 200 (Some MockLogin.granted)))
                MockLogin.logged "u2" "p2" "u2" "p2") as [H _].
    apply H. reflexivity.
  - destruct (login_idempotent_while_authenticated
                (MockLogin.env (Response.mk 200 (Some MockLogin.granted)))
                World.init "u" "p" "u2" "p2") as [_ H].
    destruct H as [_ H]; [reflexivity | vm_compute; reflexivity |].
    rewrite H. reflexivity.
Defined.

Lemma user_init_missing_field (um : gmap string jvalue) (k : string) :
  k ∈ user_fields -> um !! k = None ->
  exists k', k' ∈ user_fields
             /\ TinybeansUser.__init__ (JObj um) = Err (KeyError (JStr k')).
Proof.
  intros Hk Hnone.
  assert (Hin : forall f, In f user_fields -> f ∈ user_fields)
    by (intros f; apply list_elem_of_In).
  unfold TinybeansUser.__init__, rbind, Py.getitem.
  destruct (um !! "id") eqn:H1;
    [|exists "id"; split; [apply Hin; simpl; tauto|done]].
  destruct (um !! "emailAddress") eqn:H2;
    [|exists "emailAddress"; split; [apply Hin; simpl; tauto|done]].
  destruct (um !! "firstName") eqn:H3;
    [|exists "firstName"; split; [apply Hin; simpl; tauto|done]].
  destruct (um !! "lastName") eqn:H4;
    [|exists "lastName"; split; [apply Hin; simpl; tauto|done]].
  destruct (um !! "username") eqn:H5;
    [|exists "username"; split; [apply Hin; simpl; tauto|done]].
  exfalso. unfold user_fields in Hk.
  repeat (apply elem_of_cons in Hk as [-> | Hk]; [congruence|]).
  by apply elem_of_nil in Hk.
Qed.

(** C6, as the code has it.  [login] never looks at the status.  What
    makes it fail is the body: if the access-token field is missing the
    call raises [KeyError] after its single authenticate request and the
    client holds no token; if the user record or one of its fields is
    missing the call raises [KeyError] as well, again after a single
    request. *)
Theorem login_missing_fields_raise (env : Env.t) (w : World.t)
    (username password : string) (response : Response.t)
    (m : gmap string jvalue) :
  holds_token w = false ->
  Env.session_request env (World.trace w)
    (authenticate_request env (World.self w) username password)
  = Ok response ->
  Response.body response = Some (JObj m) ->
  let sent :=
    World.emit
      (EvRequest (authenticate_request env (World.self w) username password)) w in
  (m !! "accessToken" = None ->
   login env username password w = (Raises (KeyError (JStr "accessToken")), sent)
   /\ holds_token sent = false)
  /\ (forall token, m !! "accessToken" = Some token -> m !! "user" = None ->
      (login env username password w).1 = Raises (KeyError (JStr "user"))
      /\ World.trace (login env username password w).2 = World.trace sent)
  /\ (forall token um k,
        m !! "accessToken" = Some token -> m !! "user" = Some (JObj um) ->
        k ∈ user_fields -> um !! k = None ->
        exists k', k' ∈ user_fields
          /\ (login env username password w).1 = Raises (KeyError (JStr k'))
          /\ World.trace (login env username password w).2 = World.trace sent).
Proof.
  intros Hw Hresp Hbody sent.
  assert (Hjson : Response.json response = Ok (JObj m))
    by (unfold Response.json; by rewrite Hbody).
  rewrite (login_not_held _ _ _ _ Hw).
  cbv [bind session_request]. rewrite Hresp, Hjson. cbn [rbind lift].
  split; [|split].
  - intros Htok. rewrite (getitem_None _ _ Htok). split; [reflexivity|exact Hw].
  - intros token Htok Huser.
    rewrite (getitem_Some _ _ _ Htok), (getitem_None _ _ Huser). split; reflexivity.
  - intros token um k Htok Huser Hk Hnone.
    destruct (user_init_missing_field um k Hk Hnone) as (k' & Hk' & Hinit).
    exists k'. split; [exact Hk'|].
    rewrite (getitem_Some _ _ _ Htok), (getitem_Some _ _ _ Huser).
    cbn [rbind]. rewrite Hinit. split; reflexivity.
Qed.

Lemma login_missing_fields_raise_witness :
  (login (MockLogin.env (Response.mk 200 (Some MockLogin.no_token))) "u" "p"
     World.init).1
  = Raises (KeyError (JStr "accessToken"))
  /\ (login (MockLogin.env (Response.mk 200 (Some MockLogin.no_user))) "u" "p"
        World.init).1
     = Raises (KeyError (JStr "user")).
Proof.
  split.
  - pose proof (login_missing_fields_raise
                  (MockLogin.env (Response.mk 200 (Some MockLogin.no_token)))
                  World.init "u" "p" (Response.mk 200 (Some MockLogin.no_token))
                  (list_to_map [("user", MockLogin.user)])
                  eq_refl eq_refl eq_refl) as [H _].
    destruct (H eq_refl) as [-> _]. reflexivity.
  - pose proof (login_missing_fields_raise
                  (MockLogin.env (Response.mk 200 (Some MockLogin.no_user)))
                  World.init "u" "p" (Response.mk 200 (Some MockLogin.no_user))
                  (list_to_map [("accessToken", JStr "tok")])
                  eq_refl eq_refl eq_refl) as (_ & H & _).
    exact (proj1 (H (JStr "tok") eq_refl eq_refl)).
Defined.

(** The claim C6 fails on a refused login whose body still carries both
    fields: status 401 raises nothing and the client holds the token. *)
Lemma login_ignores_status :
  (login (MockLogin.env (Response.mk 401 (Some MockLogin.granted))) "u" "p"
     World.init).1
  = Returns tt
  /\ holds_token
       (login (MockLogin.env (Response.mk 401 (Some MockLogin.granted))) "u" "p"
          World.init).2
     = true.
Proof. split; vm_compute; reflexivity. Qed.

(** The token is stored before the user record is read, so a body with a
    token and no usable user record raises and still leaves the client
    logged in. *)
Lemma login_missing_user_keeps_token :
  (login (MockLogin.env (Response.mk 200 (Some MockLogin.partial_user))) "u" "p"
     World.init).1
  = Raises (KeyError (JStr "firstName"))
  /\ holds_token
       (login (MockLogin.env (Response.mk 200 (Some MockLogin.partial_user)))
          "u" "p" World.init).2
     = true.
Proof. split; vm_compute; reflexivity. Qed.

(** ** Uploads *)

Lemma uploads_snoc_request (tr : list Event) (r : Request.t) :
  World.uploads (tr ++ [EvRequest r]) = World.uploads tr.
Proof. unfold World.uploads. rewrite omap_app. simpl. by rewrite app_nil_r. Qed.

Lemma fold_callback_token (progress : list Z) (s : Self.t) :
  Self._access_token (fold_left (fun s n => callback n s) progress s)
  = Self._access_token s.
Proof.
  revert s. induction progress as [|n progress IH]; intros s; simpl; [done|].
  by rewrite IH.
Qed.

(** The upload inside its [try] always returns: what the object store
    raises ends in the error log. *)
Lemma try_upload_returns (env : Env.t) (s3 : S3Client.t) (path key : string)
    (w : World.t) :
  exists w',
    try_upload env s3 path key w = (Returns tt, w')
    /\ World.trace w'
       = World.trace w
           ++ [EvUploadFile (UploadCall.mk s3 path "tinybeans-remote-upload-prod" key)]
    /\ Self._access_token (World.self w') = Self._access_token (World.self w)
    /\ World.error_log w'
       = World.error_log w
           ++ match UploadOutcome.raised
                      (Env.upload_file env (World.trace w)
                         (UploadCall.mk s3 path "tinybeans-remote-upload-prod" key))
              with
              | Some e => [e]
              | None => []
              end
    /\ World.uuids_drawn w' = World.uuids_drawn w.
Proof.
  cbv [try_upload try_except upload_file logging_error].
  destruct (UploadOutcome.raised _) as [e|]; eexists; (split; [reflexivity|]);
    cbn [World.trace World.self World.error_log World.uuids_drawn World.emit
         World.with_self];
    rewrite fold_callback_token, ?app_nil_r; done.
Qed.

(** [s3_client] touches nothing but the trace, where it leaves at most
    the credential exchange. *)
Lemma s3_client_frame (env : Env.t) (w : World.t) (o : outcome S3Client.t)
    (w' : World.t) :
  s3_client env w = (o, w') ->
  World.self w' = World.self w
  /\ World.error_log w' = World.error_log w
  /\ World.uuids_drawn w' = World.uuids_drawn w
  /\ exists evs, World.trace w' = World.trace w ++ evs
                 /\ World.requests evs = [] /\ World.uploads evs = []
                 /\ (forall s3, o = Returns s3 ->
                     exists identity_id, evs = [EvGetCredentials identity_id]).
Proof.
  cbv [s3_client bind os_environ get_credentials_for_identity].
  destruct (Env.environ env !! "IDENTITY_ID") as [identity_id|]; cbv [ret raise].
  2:{ intros [= <- <-]. repeat split. exists []. rewrite app_nil_r.
      repeat split. intros s3 [=]. }
  destruct (Env.get_credentials_for_identity env _ _) as [cr|e].
  2:{ intros [= <- <-]. repeat split. exists [EvGetCredentials identity_id].
      repeat split. intros s3 [=]. }
  cbv [lift].
  destruct (rbind (Py.getitem cr "Credentials") (fun c => Py.getitem c "AccessKeyId"));
    cbv [ret raise];
    [|intros [= <- <-]; repeat split; exists [EvGetCredentials identity_id];
      repeat split; intros s3 [=]].
  destruct (rbind (Py.getitem cr "Credentials") (fun c => Py.getitem c "SecretKey"));
    [|intros [= <- <-]; repeat split; exists [EvGetCredentials identity_id];
      repeat split; intros s3 [=]].
  destruct (rbind (Py.getitem cr "Credentials") (fun c => Py.getitem c "SessionToken"));
    intros [= <- <-]; repeat split; exists [EvGetCredentials identity_id];
    repeat split; intros s3 _; by exists identity_id.
Qed.

Lemma upload_media_unfold (env : Env.t) (w : World.t) (mediaItem : MediaItem.t)
    (s3Client : option S3Client.t) (index total_items : Z) :
  upload_media env mediaItem s3Client index total_items w
  = match Env.stat_st_size env (World.trace w) (MediaItem.file mediaItem) with
    | Err e =>
        (Raises e,
         World.mk (World.self w) (World.trace w) (World.error_log w)
           (S (World.uuids_drawn w)))
    | Ok _ =>
        let key := remote_file_name env (World.uuids_drawn w) mediaItem in
        (_ <- match s3Client with
              | Some client => try_upload env client (MediaItem.file mediaItem) key
              | None =>
                  (s3 <- s3_client env ;;
                   try_upload env s3 (MediaItem.file mediaItem) key)
              end ;;
         _ <- lift (Py.true_divide index total_items) ;;
         response <-
           _api env "journals/1572712/entries" None
             (Some (registration_body mediaItem key)) "POST" ;;
         ret tt)%M (upload_prelude w)
    end.
Proof.
  cbv [upload_media]. cbv [bind uuid4_str stat_st_size set_bytes_uploaded].
  cbn [World.trace World.self World.with_self World.error_log World.uuids_drawn].
  destruct (Env.stat_st_size env _ _); reflexivity.
Qed.

(** What [upload_media] does once it has the file's size and a client. *)
Lemma upload_media_from_ready (env : Env.t) (w : World.t)
    (mediaItem : MediaItem.t) (s3Client : option S3Client.t)
    (index total_items size : Z) (s3 : S3Client.t) (ready : World.t) :
  Env.stat_st_size env (World.trace w) (MediaItem.file mediaItem) = Ok size ->
  match s3Client with
  | Some client => (Returns client, upload_prelude w)
  | None => s3_client env (upload_prelude w)
  end = (Returns s3, ready) ->
  let key := remote_file_name env (World.uuids_drawn w) mediaItem in
  let call := upload_call s3 mediaItem key in
  let post := registration_request env (World.self w) mediaItem key in
  exists uploaded,
    upload_media env mediaItem s3Client index total_items w
    = match Py.true_divide index total_items with
      | Err e => (Raises e, uploaded)
      | Ok _ =>
          (match Env.session_request env
                   (World.trace ready ++ [EvUploadFile call]) post with
           | Ok _ => Returns tt
           | Err e => Raises e
           end,
           World.emit (EvRequest post) uploaded)
      end
    /\ World.trace uploaded = World.trace ready ++ [EvUploadFile call]
    /\ Self._access_token (World.self uploaded) = Self._access_token (World.self w)
    /\ World.error_log uploaded
       = World.error_log w
           ++ match UploadOutcome.raised (Env.upload_file env (World.trace ready) call) with
              | Some e => [e]
              | None => []
              end
    /\ World.uuids_drawn uploaded = S (World.uuids_drawn w).
Proof.
  intros Hstat Hready key call post.
  destruct (try_upload_returns env s3 (MediaItem.file mediaItem) key ready)
    as (uploaded & Hup & Htrace & Htok & Hlog & Huuid).
  assert (Hframe : Self._access_token (World.self ready)
                   = Self._access_token (World.self w)
                   /\ World.error_log ready = World.error_log w
                   /\ World.uuids_drawn ready = S (World.uuids_drawn w)).
  { destruct s3Client as [client|].
    - injection Hready as <- <-. repeat split.
    - apply s3_client_frame in Hready as (-> & -> & -> & _). repeat split. }
  destruct Hframe as (Htok' & Hlog' & Huuid').
  exists uploaded.
  split; [|split; [exact Htrace|split; [congruence|split; [|congruence]]]];
    [|rewrite Hlog, Hlog'; reflexivity].
  rewrite upload_media_unfold, Hstat. cbv zeta. fold key.
  assert (Hscope :
    match s3Client with
    | Some client => try_upload env client (MediaItem.file mediaItem) key
    | None => (s3 <- s3_client env ;; try_upload env s3 (MediaItem.file mediaItem) key)%M
    end (upload_prelude w) = (Returns tt, uploaded)).
  { destruct s3Client as [client|].
    - injection Hready as -> <-. exact Hup.
    - cbv [bind]. rewrite Hready. exact Hup. }
  cbv [bind] in Hscope |- *. rewrite Hscope.
  destruct (Py.true_divide index total_items); cbn [lift]; cbv [ret raise];
    [|reflexivity].
  rewrite _api_eq. cbv [session_request].
  rewrite Htrace.
  rewrite (api_request_token env (World.self uploaded) (World.self w))
    by congruence.
  subst post call. unfold registration_request, upload_call.
  destruct (Env.session_request env _ _); reflexivity.
Qed.

(** ** Line 243 *)

Lemma float_overflow_bound_pos : 1 <= Py.float_overflow_bound.
Proof. unfold Z.le. vm_compute. discriminate. Qed.

Lemma true_divide_ok (a b : Z) :
  b <> 0 -> Z.abs a < Py.float_overflow_bound * Z.abs b ->
  Py.true_divide a b = Ok tt.
Proof.
  intros Hb Hlt. unfold Py.true_divide.
  rewrite (proj2 (Z.eqb_neq b 0) Hb).
  by rewrite (proj2 (Z.leb_gt _ _) Hlt).
Qed.

(** The progress of a batch divides an index below the total. *)
Lemma true_divide_progress (i total : Z) :
  0 <= i < total -> Py.true_divide i total = Ok tt.
Proof.
  intros Hi. apply true_divide_ok; [lia|].
  pose proof float_overflow_bound_pos. nia.
Qed.



Lemma batch_events_token (env : Env.t) (s s' : Self.t) (s3 : S3Client.t)
    (mediaItems : list MediaItem.t) :
  Self._access_token s = Self._access_token s' ->
  forall n, batch_events env s s3 n mediaItems = batch_events env s' s3 n mediaItems.
Proof.
  intros H. induction mediaItems as [|item rest IH]; intros n; simpl; [done|].
  unfold registration_request.
  by rewrite (api_request_token env s s' _ _ _ _ H), IH.
Qed.

Lemma batch_events_counts (env : Env.t) (s : Self.t) (s3 : S3Client.t)
    (mediaItems : list MediaItem.t) :
  forall n,
    length (World.uploads (batch_events env s s3 n mediaItems)) = length mediaItems
    /\ length (World.requests (batch_events env s s3 n mediaItems)) = length mediaItems
    /\ World.credential_exchanges (batch_events env s s3 n mediaItems) = [].
Proof.
  induction mediaItems as [|item rest IH]; intros n; simpl; [done|].
  destruct (IH (S n)) as (-> & -> & ->). done.
Qed.

Lemma batch_answered_token (env : Env.t) (s s' : Self.t) (s3 : S3Client.t)
    (mediaItems : list MediaItem.t) :
  Self._access_token s = Self._access_token s' ->
  forall n tr,
    batch_answered env s s3 n tr mediaItems ->
    batch_answered env s' s3 n tr mediaItems.
Proof.
  intros H. induction mediaItems as [|item rest IH]; intros n tr; [done|].
  cbn [batch_answered]. unfold registration_request.
  rewrite (api_request_token env s s' _ _ _ _ H).
  intros (Hstat & Hresp & Hrest). eauto.
Qed.

(** The loop of [upload_medias] over any suffix of the batch. *)
Lemma for_each_upload_media (env : Env.t) (s3 : S3Client.t) (total : Z) :
  forall (mediaItems : list MediaItem.t) (i : Z) (w : World.t),
    0 <= i -> i + Z.of_nat (length mediaItems) <= total ->
    batch_answered env (World.self w) s3 (World.uuids_drawn w) (World.trace w)
      mediaItems ->
    exists w',
      for_each (fun '(index, item) => upload_media env item (Some s3) index total)
        (enumerate_from i mediaItems) w
      = (Returns tt, w')
      /\ World.trace w'
         = World.trace w
             ++ batch_events env (World.self w) s3 (World.uuids_drawn w) mediaItems
      /\ Self._access_token (World.self w') = Self._access_token (World.self w).
Proof.
  induction mediaItems as [|item rest IH]; intros i w Hi Htotal Hanswered.
  - exists w. simpl. rewrite app_nil_r. done.
  - cbn [batch_answered] in Hanswered.
    destruct Hanswered as ([size Hsize] & [resp Hresp] & Hrest).
    destruct (upload_media_from_ready env w item (Some s3) i total size s3
                (upload_prelude w) Hsize eq_refl)
      as (uploaded & Hrun & Htrace & Htok & _ & Huuid).
    rewrite (true_divide_progress i total) in Hrun
      by (cbn [length] in Htotal; lia).
    cbn [World.trace upload_prelude] in Hrun, Htrace.
    rewrite Hresp in Hrun.
    set (post := registration_request env (World.self w) item
                   (remote_file_name env (World.uuids_drawn w) item)) in *.
    destruct (IH (i + 1) (World.emit (EvRequest post) uploaded))
      as (w' & Hloop & Htrace' & Htok').
    { lia. }
    { cbn [length] in Htotal. lia. }
    { cbn [World.trace World.emit World.self World.uuids_drawn].
      rewrite Htrace, Huuid, <- app_assoc.
      apply (batch_answered_token env (World.self w) (World.self uploaded) s3 rest);
        [by symmetry|exact Hrest]. }
    exists w'. cbn [enumerate_from for_each]. cbv [bind]. rewrite Hrun.
    split; [exact Hloop|]. split.
    + rewrite Htrace'. cbn [World.trace World.emit World.self World.uuids_drawn].
      rewrite Htrace, Huuid. cbn [batch_events].
      rewrite (batch_events_token env (World.self uploaded) (World.self w) s3 rest Htok).
      rewrite <- !app_assoc. reflexivity.
    + rewrite Htok'. exact Htok.
Qed.



(** Past the bound of float division line 243 raises after the upload:
    the file is in the bucket and is never registered. *)
Lemma upload_media_overflow_skips_registration :
  (upload_media MockUpload.env MockUpload.photo (Some MockUpload.client)
     (10 ^ 309) 1 World.init).1
  = Raises OverflowError
  /\ length
       (World.uploads
          (World.trace
             (upload_media MockUpload.env MockUpload.photo
                (Some MockUpload.client) (10 ^ 309) 1 World.init).2))
     = 1%nat
  /\ World.requests
       (World.trace
          (upload_media MockUpload.env MockUpload.photo (Some MockUpload.client)
             (10 ^ 309) 1 World.init).2)
     = [].
Proof. repeat split; vm_compute; reflexivity. Qed.

(** C5.  When the credential scope is acquired and, as its turn comes,
    each item's file can be read and its registration is answered,
    [upload_medias] exchanges credentials once and then, item by item in
    input order, uploads and registers: N uploads and N POSTs, each item's
    POST before the next item's upload.  When the scope is not acquired
    the call raises with nothing uploaded and nothing posted. *)
Theorem upload_medias_batch (env : Env.t) (w : World.t)
    (mediaItems : list MediaItem.t) :
  (forall s3 ready,
     s3_client env w = (Returns s3, ready) ->
     batch_answered env (World.self w) s3 (World.uuids_drawn w) (World.trace ready)
       mediaItems ->
     let batch := batch_events env (World.self w) s3 (World.uuids_drawn w) mediaItems in
     (upload_medias env mediaItems w).1 = Returns tt
     /\ (exists identity_id,
           World.trace (upload_medias env mediaItems w).2
           = World.trace w ++ EvGetCredentials identity_id :: batch)
     /\ World.credential_exchanges batch = []
     /\ length (World.uploads batch) = length mediaItems
     /\ length (World.requests batch) = length mediaItems)
  /\ (forall e failed,
        s3_client env w = (Raises e, failed) ->
        upload_medias env mediaItems w = (Raises e, failed)
        /\ World.uploads (World.trace failed) = World.uploads (World.trace w)
        /\ World.requests (World.trace failed) = World.requests (World.trace w)).
Proof.
  split.
  - intros s3 ready Hscope Hanswered batch.
    destruct (s3_client_frame env w _ _ Hscope)
      as (Hself & _ & Huuid & evs & Hevs & _ & _ & Hid).
    destruct (for_each_upload_media env s3 (Z.of_nat (length mediaItems))
                mediaItems 0 ready)
      as (w' & Hrun & Htrace & _); [lia|lia|by rewrite Hself, Huuid|].
    assert (Heq : upload_medias env mediaItems w = (Returns tt, w'))
      by (cbv [upload_medias bind]; rewrite Hscope; exact Hrun).
    destruct (Hid s3 eq_refl) as [identity_id ->].
    destruct (batch_events_counts env (World.self w) s3 mediaItems
                (World.uuids_drawn w)) as (Hup & Hreq & Hcred).
    rewrite Heq. cbn [fst snd]. split; [reflexivity|].
    split; [|by repeat split].
    exists identity_id. rewrite Htrace, Hevs, Hself, Huuid, <- app_assoc.
    reflexivity.
  - intros e failed Hscope.
    split; [cbv [upload_medias bind]; by rewrite Hscope|].
    destruct (s3_client_frame env w _ _ Hscope)
      as (_ & _ & _ & evs & -> & Hreq & Hup & _).
    unfold World.uploads, World.requests in *.
    by rewrite !omap_app, Hreq, Hup, !app_nil_r.
Qed.

(** Two items, the first of which fails to upload, on a host where only
    their two files exist and only registrations are answered; and a host
    without the identity variable. *)
Lemma upload_medias_batch_witness :
  ((upload_medias MockDisk.env [MockUpload.photo; MockUpload.clip] World.init).1
   = Returns tt
   /\ exists identity_id,
        World.trace (upload_medias MockDisk.env [MockUpload.photo; MockUpload.clip]
                       World.init).2
        = EvGetCredentials identity_id
            :: batch_events MockDisk.env Self.__init__ MockUpload.client 0
                 [MockUpload.photo; MockUpload.clip])
  /\ (upload_medias
        (Env.mk String.append Mock.str (fun _ _ => Mock.ok JNull)
           (fun _ _ => Ok Mock.credentials) (fun _ _ => MockUpload.failing)
           (fun _ _ => Ok 1024) Mock.uuid4 ∅ (fun _ => 0) 0)
        [MockUpload.photo; MockUpload.clip] World.init)
     = (Raises (KeyError (JStr "IDENTITY_ID")), World.init).
Proof.
  split.
  - destruct (upload_medias_batch MockDisk.env World.init
                [MockUpload.photo; MockUpload.clip]) as [H _].
    specialize (H MockUpload.client
                  (World.emit (EvGetCredentials "us-east-1:identity") World.init)
                  eq_refl).
    cbv zeta in H. destruct H as (Hres & (identity_id & Htrace) & _).
    + cbn [batch_answered]. repeat split; eexists; reflexivity.
    + split; [exact Hres|]. exists identity_id. exact Htrace.
  - destruct (upload_medias_batch
                (Env.mk String.append Mock.str (fun _ _ => Mock.ok JNull)
                   (fun _ _ => Ok Mock.credentials) (fun _ _ => MockUpload.failing)
                   (fun _ _ => Ok 1024) Mock.uuid4 ∅ (fun _ => 0) 0)
                World.init [MockUpload.photo; MockUpload.clip]) as [_ H].
    exact (proj1 (H (KeyError (JStr "IDENTITY_ID")) World.init eq_refl)).
Defined.



(** ** Pagination *)


Lemma fetch_page_eq (env : Env.t) (child : TinybeanChild.t) (last : jvalue)
    (w : World.t) :
  fetch_page env child last w
  = session_request env (page_request env (World.self w) child last) w.
Proof. unfold fetch_page. by rewrite _api_eq. Qed.

Lemma is_page_json (response : Response.t) (items : list jvalue) (remaining : Z) :
  is_page response items remaining ->
  exists m : gmap string jvalue,
    Response.json response = Ok (JObj m)
    /\ m !! "entries" = Some (JList items)
    /\ m !! "numEntriesRemaining" = Some (JInt remaining).
Proof.
  intros (m & Hbody & Hentries & Hremaining). exists m.
  unfold Response.json. by rewrite Hbody.
Qed.

Lemma append_page_parsed (response : Response.t) (items : list jvalue)
    (remaining : Z) (parsed acc : list TinybeanEntry.t) :
  is_page response items remaining -> parse_to items parsed ->
  append_page acc response = Ok (acc ++ parsed).
Proof.
  intros Hpage Hparse. destruct (is_page_json _ _ _ Hpage) as (m & Hjson & Hentries & _).
  unfold append_page. rewrite Hjson. cbn [rbind].
  rewrite (getitem_Some _ _ _ Hentries). cbn [rbind Py.iterate].
  by apply append_each_all.
Qed.

(** The loop ends without a request when the count is not positive. *)
Lemma pagination_stops (env : Env.t) (fuel : nat) (child : TinybeanChild.t)
    (response : Response.t) (m : gmap string jvalue) (remaining : Z)
    (entries : list TinybeanEntry.t) (w : World.t) :
  Response.body response = Some (JObj m) ->
  m !! "numEntriesRemaining" = Some (JInt remaining) ->
  remaining <= 0 ->
  pagination env (S fuel) child response entries w = (Returns entries, w).
Proof.
  intros Hbody Hremaining Hle.
  cbn [pagination]. cbv [bind lift]. unfold Response.json. rewrite Hbody.
  cbn [rbind]. rewrite (getitem_Some _ _ _ Hremaining). cbn [rbind Py.gt0].
  replace (0 <? remaining) with false by (symmetry; apply Z.ltb_ge; lia).
  reflexivity.
Qed.

(** One turn of the loop: the cursor is the timestamp of the first entry
    of the page in hand. *)
Lemma pagination_step (env : Env.t) (fuel : nat) (child : TinybeanChild.t)
    (response response' : Response.t) (items items' : list jvalue)
    (remaining remaining' : Z) (cursor : jvalue)
    (entries parsed' : list TinybeanEntry.t) (w : World.t) :
  is_page response items remaining ->
  0 < remaining ->
  first_timestamp items = Ok cursor ->
  Env.session_request env (World.trace w)
    (page_request env (World.self w) child cursor) = Ok response' ->
  is_page response' items' remaining' ->
  parse_to items' parsed' ->
  pagination env (S fuel) child response entries w
  = pagination env fuel child response' (entries ++ parsed')
      (World.emit (EvRequest (page_request env (World.self w) child cursor)) w).
Proof.
  intros Hpage Hpos Hcursor Hnext Hpage' Hparse'.
  destruct (is_page_json _ _ _ Hpage) as (m & Hjson & Hentries & Hremaining).
  destruct (is_page_json _ _ _ Hpage') as (m' & Hjson' & Hentries' & _).
  cbn [pagination]. cbv [bind lift]. rewrite Hjson. cbn [rbind].
  rewrite (getitem_Some _ _ _ Hremaining). cbn [rbind Py.gt0].
  replace (0 <? remaining) with true by (symmetry; apply Z.ltb_lt; lia).
  cbv [ret]. rewrite (getitem_Some _ _ _ Hentries). cbn [rbind].
  unfold first_timestamp in Hcursor. cbn [rbind] in Hcursor. rewrite Hcursor.
  rewrite fetch_page_eq. cbv [session_request]. rewrite Hnext.
  rewrite Hjson'. cbn [rbind Py.contains]. rewrite Hentries'.
  rewrite bool_decide_eq_true_2 by eauto.
  rewrite (append_page_parsed _ _ _ _ entries Hpage' Hparse').
  reflexivity.
Qed.

Lemma pagination_serves (env : Env.t) (self : Self.t) (child : TinybeanChild.t)
    (tr : list Event) (response : Response.t) (requests : list Request.t)
    (served : list TinybeanEntry.t) :
  serves env self child tr response requests served ->
  forall (fuel : nat) (entries : list TinybeanEntry.t) (w : World.t),
    World.trace w = tr -> World.self w = self ->
    (length requests < fuel)%nat ->
    pagination env fuel child response entries w
    = (Returns (entries ++ served),
       with_trace (tr ++ (EvRequest <$> requests)) w).
Proof.
  induction 1 as [tr response m remaining Hbody Hremaining Hle
                 |tr response items remaining cursor response' items' remaining'
                    parsed' requests served Hpage Hpos Hcursor Hnext Hpage' Hparse'
                    _ IH];
    intros fuel entries w Htr Hself Hfuel.
  - destruct fuel as [|fuel]; [cbn in Hfuel; lia|].
    rewrite (pagination_stops env fuel child response m remaining entries w
               Hbody Hremaining Hle).
    destruct w. cbn in Htr. subst. cbn. by rewrite !app_nil_r.
  - destruct fuel as [|fuel]; [cbn in Hfuel; lia|].
    subst tr self.
    rewrite (pagination_step env fuel child response response' items items'
               remaining remaining' cursor entries parsed' w
               Hpage Hpos Hcursor Hnext Hpage' Hparse').
    rewrite (IH fuel (entries ++ parsed')
               (World.emit (EvRequest (page_request env (World.self w) child cursor)) w)
               eq_refl eq_refl)
      by (cbn [length] in Hfuel; lia).
    rewrite fmap_cons, <- !app_assoc. reflexivity.
Qed.

Lemma get_entries_first_page (env : Env.t) (fuel : nat) (child : TinybeanChild.t)
    (last : option Z) (get_deleted_entries : bool) (w : World.t)
    (response : Response.t) (items : list jvalue) (remaining : Z)
    (parsed : list TinybeanEntry.t) :
  Env.session_request env (World.trace w)
    (page_request env (World.self w) child (first_cursor env w last)) = Ok response ->
  is_page response items remaining ->
  parse_to items parsed ->
  get_entries env fuel child last get_deleted_entries w
  = (entries <- pagination env fuel child response parsed ;;
     ret (List.filter (keep get_deleted_entries) entries))%M
      (World.emit
         (EvRequest (page_request env (World.self w) child (first_cursor env w last)))
         w).
Proof.
  intros Hresp Hpage Hparse.
  destruct (is_page_json _ _ _ Hpage) as (m & Hjson & _ & Hremaining).
  assert (Hcursor :
    match last with Some l => ret (JInt l) | None => default_last env end w
    = (Returns (first_cursor env w last), w)).
  { destruct last as [l|]; [reflexivity|].
    cbv [default_last bind utcnow ret timetuple mktime first_cursor].
    by rewrite Z.sub_0_r. }
  cbv [get_entries]. cbv [bind] in Hcursor |- *. rewrite Hcursor.
  rewrite fetch_page_eq. cbv [session_request]. rewrite Hresp.
  rewrite (append_page_parsed _ _ _ _ [] Hpage Hparse). cbn [lift app].
  cbv [ret]. rewrite Hjson. cbn [rbind].
  rewrite (getitem_Some _ _ _ Hremaining). reflexivity.
Qed.

Lemma filter_keep_false (entries : list TinybeanEntry.t) :
  List.filter (keep false) entries = List.filter not_deleted entries.
Proof.
  induction entries as [|e entries IH]; [done|]. cbn.
  unfold keep, not_deleted in *. rewrite andb_true_r, IH. reflexivity.
Qed.

(** Without the flag the filter of the source is the specified one. *)
Lemma keep_agrees_without_flag (e : TinybeanEntry.t) :
  keep false e = keep_as_specified false e.
Proof. unfold keep, keep_as_specified. by rewrite andb_true_r, orb_false_r. Qed.

(** With the flag the two are opposite on every entry. *)
Lemma keep_disagrees_with_flag (e : TinybeanEntry.t) :
  keep true e = false /\ keep_as_specified true e = true.
Proof. unfold keep, keep_as_specified. by rewrite andb_false_r, orb_true_r. Qed.

Lemma filter_keep_true (entries : list TinybeanEntry.t) :
  List.filter (keep true) entries = [].
Proof.
  induction entries as [|e entries IH]; [done|]. cbn.
  unfold keep in *. by rewrite andb_false_r.
Qed.

(** [get_entries] over a whole conversation: as many requests as the
    conversation has pages, and the pages' entries in fetch order behind
    the filter of line 302. *)
Lemma get_entries_serves (env : Env.t) (fuel : nat) (child : TinybeanChild.t)
    (last : option Z) (get_deleted_entries : bool) (w : World.t)
    (response : Response.t) (items : list jvalue) (remaining : Z)
    (parsed served : list TinybeanEntry.t) (requests : list Request.t) :
  let first := page_request env (World.self w) child (first_cursor env w last) in
  Env.session_request env (World.trace w) first = Ok response ->
  is_page response items remaining ->
  parse_to items parsed ->
  serves env (World.self w) child (World.trace w ++ [EvRequest first]) response
    requests served ->
  (length requests < fuel)%nat ->
  get_entries env fuel child last get_deleted_entries w
  = (Returns (List.filter (keep get_deleted_entries) (parsed ++ served)),
     with_trace (World.trace w ++ EvRequest first :: (EvRequest <$> requests)) w).
Proof.
  intros first Hresp Hpage Hparse Hserves Hfuel.
  rewrite (get_entries_first_page env fuel child last get_deleted_entries w
             response items remaining parsed Hresp Hpage Hparse).
  fold first. cbv [bind].
  rewrite (pagination_serves env (World.self w) child _ response requests served
             Hserves fuel parsed (World.emit (EvRequest first) w)
             eq_refl eq_refl Hfuel).
  cbv [ret with_trace]. cbn [World.self World.emit World.error_log World.uuids_drawn].
  by rewrite <- app_assoc.
Qed.

(** C3, as the code has it.  Against a server whose pages report the
    counts 400, 200 and 0, [get_entries] without the deleted-inclusion
    flag sends exactly three requests: the first with the initial cursor,
    each later one with the timestamp of the first entry of the page just
    fetched.  It returns the entries of the three pages that are not
    deleted, in fetch order.  In general the same holds for any
    conversation: the loop goes on while the reported count is positive
    and stops at the first page whose count is not. *)
Theorem get_entries_paginates (env : Env.t) (fuel : nat)
    (child : TinybeanChild.t) (last : option Z) (w : World.t) :
  let first := page_request env (World.self w) child (first_cursor env w last) in
  (forall (r1 r2 r3 : Response.t) (items1 items2 items3 : list jvalue)
          (es1 es2 es3 : list TinybeanEntry.t) (t1 t2 : jvalue),
     let second := page_request env (World.self w) child t1 in
     let third := page_request env (World.self w) child t2 in
     Env.session_request env (World.trace w) first = Ok r1 ->
     is_page r1 items1 400 -> parse_to items1 es1 ->
     first_timestamp items1 = Ok t1 ->
     Env.session_request env (World.trace w ++ [EvRequest first]) second = Ok r2 ->
     is_page r2 items2 200 -> parse_to items2 es2 ->
     first_timestamp items2 = Ok t2 ->
     Env.session_request env (World.trace w ++ [EvRequest first; EvRequest second])
       third = Ok r3 ->
     is_page r3 items3 0 -> parse_to items3 es3 ->
     (3 <= fuel)%nat ->
     get_entries env fuel child last false w
     = (Returns (List.filter not_deleted (es1 ++ es2 ++ es3)),
        with_trace
          (World.trace w ++ [EvRequest first; EvRequest second; EvRequest third])
          w))
  /\ (forall (response : Response.t) (items : list jvalue) (remaining : Z)
             (parsed served : list TinybeanEntry.t) (requests : list Request.t),
        Env.session_request env (World.trace w) first = Ok response ->
        is_page response items remaining ->
        parse_to items parsed ->
        serves env (World.self w) child (World.trace w ++ [EvRequest first])
          response requests served ->
        (length requests < fuel)%nat ->
        get_entries env fuel child last false w
        = (Returns (List.filter not_deleted (parsed ++ served)),
           with_trace
             (World.trace w ++ EvRequest first :: (EvRequest <$> requests)) w)).
Proof.
  intros first. split.
  - intros r1 r2 r3 items1 items2 items3 es1 es2 es3 t1 t2 second third
      Hr1 Hp1 Hs1 Ht1 Hr2 Hp2 Hs2 Ht2 Hr3 Hp3 Hs3 Hfuel.
    destruct Hp3 as (m3 & Hbody3 & Hentries3 & Hremaining3).
    assert (Hserves :
      serves env (World.self w) child (World.trace w ++ [EvRequest first]) r1
        [second; third] (es2 ++ es3 ++ [])).
    { eapply serves_more; [exact Hp1|lia|exact Ht1|exact Hr2|exact Hp2|exact Hs2|].
      eapply serves_more;
        [exact Hp2|lia|exact Ht2| |exists m3; by repeat split|exact Hs3|].
      - rewrite <- app_assoc. exact Hr3.
      - eapply serves_done; [exact Hbody3|exact Hremaining3|lia]. }
    rewrite app_nil_r in Hserves.
    rewrite (get_entries_serves env fuel child last false w r1 items1 400 es1
               (es2 ++ es3) [second; third] Hr1 Hp1 Hs1 Hserves)
      by (cbn [length]; lia).
    by rewrite filter_keep_false.
  - intros response items remaining parsed served requests Hr Hp Hs Hserves Hfuel.
    rewrite (get_entries_serves env fuel child last false w response items
               remaining parsed served requests Hr Hp Hs Hserves Hfuel).
    by rewrite filter_keep_false.
Qed.

Lemma get_entries_paginates_witness :
  get_entries (MockPages.env MockPages.three_pages) 3 Mock.child (Some 1000)
    false World.init
  = (Returns [MockPages.parsed 1 false 300; MockPages.parsed 3 false 100],
     with_trace
       (EvRequest
          <$> [page_request (MockPages.env MockPages.three_pages) Self.__init__
                 Mock.child (JInt 1000);
               page_request (MockPages.env MockPages.three_pages) Self.__init__
                 Mock.child (JInt 300);
               page_request (MockPages.env MockPages.three_pages) Self.__init__
                 Mock.child (JInt 200)])
       World.init).
Proof.
  pose proof (get_entries_paginates (MockPages.env MockPages.three_pages) 3
                Mock.child (Some 1000) World.init) as H.
  cbv zeta in H. destruct H as [H _].
  specialize (H (Response.mk 200 (Some (Mock.page [Mock.entry 1 false 300] 400)))
                (Response.mk 200 (Some (Mock.page [Mock.entry 2 true 200] 200)))
                (Response.mk 200 (Some (Mock.page [Mock.entry 3 false 100] 0)))
                [Mock.entry 1 false 300] [Mock.entry 2 true 200]
                [Mock.entry 3 false 100]
                [MockPages.parsed 1 false 300] [MockPages.parsed 2 true 200]
                [MockPages.parsed 3 false 100]
                (JInt 300) (JInt 200)).
  rewrite H.
  - reflexivity.
  - reflexivity.
  - eexists. repeat split; reflexivity.
  - repeat constructor.
  - reflexivity.
  - reflexivity.
  - eexists. repeat split; reflexivity.
  - repeat constructor.
  - reflexivity.
  - reflexivity.
  - eexists. repeat split; reflexivity.
  - repeat constructor.
  - apply le_n.
Defined.

(** The pages of this server carry three entries; the deleted one is not
    returned, so the result is not the concatenation of the pages. *)
Lemma get_entries_drops_deleted :
  parse_to [Mock.entry 1 false 300; Mock.entry 2 true 200; Mock.entry 3 false 100]
    [MockPages.parsed 1 false 300; MockPages.parsed 2 true 200;
     MockPages.parsed 3 false 100]
  /\ (get_entries (MockPages.env MockPages.three_pages) 3 Mock.child (Some 1000)
        false World.init).1
     = Returns [MockPages.parsed 1 false 300; MockPages.parsed 3 false 100]
  /\ [MockPages.parsed 1 false 300; MockPages.parsed 3 false 100]
     <> [MockPages.parsed 1 false 300; MockPages.parsed 2 true 200;
         MockPages.parsed 3 false 100].
Proof.
  split; [repeat constructor|]. split; [vm_compute; reflexivity|].
  intros H. apply (f_equal length) in H. discriminate H.
Qed.

(** With the deleted-inclusion flag set, whatever [get_entries] returns
    is empty. *)
Lemma get_entries_flag_set_empty (env : Env.t) (fuel : nat)
    (child : TinybeanChild.t) (last : option Z) (w w' : World.t)
    (returned : list TinybeanEntry.t) :
  get_entries env fuel child last true w = (Returns returned, w') ->
  returned = [].
Proof.
  cbv [get_entries bind].
  destruct (match last with Some l => ret (JInt l) | None => default_last env end w)
    as [[cursor|e|] w0]; [|discriminate..].
  destruct (fetch_page env child cursor w0) as [[response|e|] w1]; [|discriminate..].
  destruct (lift (append_page [] response) w1) as [[entries|e|] w2]; [|discriminate..].
  destruct (lift _ w2) as [[remaining|e|] w3]; [|discriminate..].
  destruct (pagination env fuel child response entries w3) as [[all|e|] w4];
    [|discriminate..].
  cbv [ret]. intros [= <- _]. apply filter_keep_true.
Qed.

(** C1 on a one-page journal whose only entry is not deleted: the entry
    is returned without the flag and is missing with it, where the claim
    keeps it. *)
Theorem get_entries_flag_set_returns_nothing :
  Py.truthy (TinybeanEntry.deleted (MockPages.parsed 1 false 300)) = false
  /\ List.filter (keep_as_specified true) [MockPages.parsed 1 false 300]
     = [MockPages.parsed 1 false 300]
  /\ (get_entries (MockPages.env MockPages.one_page) 1 Mock.child (Some 1000)
        false World.init).1
     = Returns [MockPages.parsed 1 false 300]
  /\ (get_entries (MockPages.env MockPages.one_page) 1 Mock.child (Some 1000)
        true World.init).1
     = Returns [].
Proof. repeat split; vm_compute; reflexivity. Qed.

(** C2 on a second page that reports 3 entries remaining and carries no
    [entries]: appending is skipped, and the next turn of the loop reads
    the cursor from that page and raises. *)
Theorem get_entries_missing_entries_raises :
  (get_entries
     (MockPages.env
        [Mock.ok (Mock.page [Mock.entry 1 false 300] 5);
         Mock.ok (MockPages.without_entries 3)])
     5 Mock.child (Some 1000) false World.init).1
  = Raises (KeyError (JStr "entries"))
  /\ length
       (World.requests
          (World.trace
             (get_entries
                (MockPages.env
                   [Mock.ok (Mock.page [Mock.entry 1 false 300] 5);
                    Mock.ok (MockPages.without_entries 3)])
                5 Mock.child (Some 1000) false World.init).2))
     = 2%nat.
Proof. split; vm_compute; reflexivity. Qed.

(** The guard of line 298 does cover a later page without [entries] that
    reports nothing remaining: the loop ends and the entries gathered so
    far are returned. *)
Lemma get_entries_missing_entries_last_page :
  (get_entries
     (MockPages.env
        [Mock.ok (Mock.page [Mock.entry 1 false 300] 5);
         Mock.ok (MockPages.without_entries 0)])
     5 Mock.child (Some 1000) false World.init).1
  = Returns [MockPages.parsed 1 false 300].
Proof. vm_compute. reflexivity. Qed.

(** The first page is read without a guard. *)
Lemma get_entries_missing_entries_first_page :
  (get_entries (MockPages.env [Mock.ok (MockPages.without_entries 0)])
     5 Mock.child (Some 1000) false World.init).1
  = Raises (KeyError (JStr "entries")).
Proof. vm_compute. reflexivity. Qed.

(** ** The default cursor *)

Lemma default_last_value (env : Env.t) (w : World.t) :
  default_last env w = (Returns (first_cursor env w None), w).
Proof.
  cbv [default_last bind utcnow ret timetuple mktime first_cursor].
  by rewrite Z.sub_0_r.
Qed.

Lemma pagination_trace_extends (env : Env.t) (child : TinybeanChild.t)
    (fuel : nat) :
  forall (response : Response.t) (entries : list TinybeanEntry.t) (w : World.t),
    exists evs,
      World.trace (pagination env fuel child response entries w).2
      = World.trace w ++ evs.
Proof.
  induction fuel as [|fuel IH]; intros response entries w.
  - exists []. cbn. by rewrite app_nil_r.
  - cbn [pagination]. cbv [bind].
    step_lift as more; [|exists []; cbn; by rewrite app_nil_r].
    destruct more; [|exists []; cbn; by rewrite app_nil_r].
    step_lift as cursor; [|exists []; cbn; by rewrite app_nil_r].
    rewrite fetch_page_eq. cbv [session_request].
    set (q := page_request env (World.self w) child cursor).
    destruct (Env.session_request env (World.trace w) q) as [response'|e];
      [|by exists [EvRequest q]].
    step_lift as present; [|by exists [EvRequest q]].
    assert (Hnext : forall entries',
              exists evs,
                World.trace
                  (pagination env fuel child response' entries'
                     (World.emit (EvRequest q) w)).2
                = World.trace w ++ evs).
    { intros entries'.
      destruct (IH response' entries' (World.emit (EvRequest q) w)) as [evs Hevs].
      exists (EvRequest q :: evs). rewrite Hevs. cbn. by rewrite <- app_assoc. }
    destruct present; [step_lift as entries'; [apply Hnext|by exists [EvRequest q]]|].
    apply Hnext.
Qed.

(** Without a cursor, the first request of [get_entries] carries the UTC
    clock reading cut to whole seconds, moved back by the local zone's
    offset, in milliseconds. *)
Lemma get_entries_default_cursor (env : Env.t) (fuel : nat)
    (child : TinybeanChild.t) (get_deleted_entries : bool) (w : World.t) :
  exists evs,
    World.trace (get_entries env fuel child None get_deleted_entries w).2
    = World.trace w
        ++ EvRequest
             (page_request env (World.self w) child
                (JInt ((Env.clock_us env (World.trace w) / 1000000
                        - Env.utc_offset env) * 1000)))
           :: evs.
Proof.
  cbv [get_entries]. cbv [bind]. rewrite default_last_value.
  rewrite fetch_page_eq. cbv [session_request first_cursor].
  set (q := page_request env (World.self w) child _).
  destruct (Env.session_request env (World.trace w) q) as [response|e];
    [|by exists []].
  step_lift as entries; [|by exists []].
  step_lift as remaining; [|by exists []].
  destruct (pagination_trace_extends env child fuel response entries
              (World.emit (EvRequest q) w)) as [evs Hevs].
  exists evs.
  destruct (pagination env fuel child response entries _) as [[all|e|] w1];
    cbn [snd] in Hevs |- *; rewrite Hevs; cbn; by rewrite <- app_assoc.
Qed.

(** On a host whose local zone is UTC the default cursor is the current
    epoch time in milliseconds, cut to the second. *)
Lemma default_cursor_utc (env : Env.t) (w : World.t) :
  Env.utc_offset env = 0 ->
  exists cursor,
    first_cursor env w None = JInt cursor
    /\ cursor <= Env.clock_us env (World.trace w) / 1000
    /\ Env.clock_us env (World.trace w) / 1000 < cursor + 1000.
Proof.
  intros Hzone. eexists. split; [reflexivity|]. rewrite Hzone, Z.sub_0_r.
  set (us := Env.clock_us env (World.trace w)).
  assert (Hus : us / 1000000 = us / 1000 / 1000)
    by (rewrite Z.div_div by lia; reflexivity).
  rewrite Hus.
  pose proof (Z.mul_div_le (us / 1000) 1000 ltac:(lia)).
  pose proof (Z.mul_succ_div_gt (us / 1000) 1000 ltac:(lia)).
  lia.
Qed.

(** C7 on a host one hour east of UTC at 2023-11-14T22:13:20.123456Z: the
    epoch time is 1700000000123 ms and the cursor sent is 1699996400000,
    one hour and 123 ms earlier. *)
Theorem default_cursor_shifted_by_zone :
  Env.clock_us (Mock.env MockPages.one_page [] 3600) [] / 1000 = 1700000000123
  /\ World.requests
       (World.trace
          (get_entries (Mock.env MockPages.one_page [] 3600) 1 Mock.child None
             false World.init).2)
     = [page_request (Mock.env MockPages.one_page [] 3600) Self.__init__
          Mock.child (JInt 1699996400000)].
Proof. split; vm_compute; reflexivity. Qed.

(** ** More on the domain model *)

(** X1.  A user record constructs exactly when it carries the five fields,
    and the user holds them unchanged. *)
Theorem user_init_characterised (m : gmap string jvalue) (u : TinybeansUser.t) :
  TinybeansUser.__init__ (JObj m) = Ok u
  <-> m !! "id" = Some (TinybeansUser.id u)
      /\ m !! "emailAddress" = Some (TinybeansUser.email_address u)
      /\ m !! "firstName" = Some (TinybeansUser.first_name u)
      /\ m !! "lastName" = Some (TinybeansUser.last_name u)
      /\ m !! "username" = Some (TinybeansUser.username u).
Proof.
  unfold TinybeansUser.__init__, rbind, Py.getitem. split.
  - destruct (m !! "id"); [|discriminate].
    destruct (m !! "emailAddress"); [|discriminate].
    destruct (m !! "firstName"); [|discriminate].
    destruct (m !! "lastName"); [|discriminate].
    destruct (m !! "username"); [|discriminate].
    intros [= <-]. done.
  - intros (-> & -> & -> & -> & ->). by destruct u.
Qed.

Lemma attachment_is_video (m : gmap string jvalue) :
  Py.eq_str (default JNull (m !! "attachmentType")) "VIDEO" = true
  <-> m !! "attachmentType" = Some (JStr "VIDEO").
Proof.
  split.
  - destruct (m !! "attachmentType") as [[| | |s| |]|]; try discriminate.
    cbn. intros H. by apply String.eqb_eq in H as ->.
  - by intros ->.
Qed.

Lemma init_type_video (m : gmap string jvalue) :
  m !! "attachmentType" = Some (JStr "VIDEO") ->
  TinybeanEntry.init_type (JObj m)
  = match m !! "attachmentUrl_mp4" with
    | Some url => Ok (JStr "VIDEO", Some url)
    | None => Err (KeyError (JStr "attachmentUrl_mp4"))
    end.
Proof.
  intros H. unfold TinybeanEntry.init_type, Py.get. rewrite H. cbn.
  unfold Py.getitem. by destruct (m !! "attachmentUrl_mp4").
Qed.

Lemma init_type_other (m : gmap string jvalue) :
  m !! "attachmentType" <> Some (JStr "VIDEO") ->
  TinybeanEntry.init_type (JObj m)
  = match m !! "type" with
    | Some ty => Ok (ty, None)
    | None => Err (KeyError (JStr "type"))
    end.
Proof.
  intros H. unfold TinybeanEntry.init_type, Py.get. cbn [rbind].
  assert (Hne : Py.eq_str (default JNull (m !! "attachmentType")) "VIDEO" = false).
  { destruct (m !! "attachmentType") as [[| | |s| |]|]; try reflexivity. cbn.
    apply String.eqb_neq. intros ->. by apply H. }
  rewrite Hne. unfold Py.getitem. by destruct (m !! "type").
Qed.

(** What [__init__] read when it returned. *)
Lemma entry_init_inversion (m : gmap string jvalue) (e : TinybeanEntry.t) :
  TinybeanEntry.__init__ (JObj m) = Ok e ->
  TinybeanEntry.init_type (JObj m)
  = Ok (TinybeanEntry.type e, TinybeanEntry.video_url e)
  /\ m !! "id" = Some (TinybeanEntry.id e)
  /\ m !! "uuid" = Some (TinybeanEntry.uuid e)
  /\ m !! "deleted" = Some (TinybeanEntry.deleted e)
  /\ m !! "caption" = Some (TinybeanEntry.caption e)
  /\ m !! "blobs" = Some (TinybeanEntry.blobs e)
  /\ TinybeanEntry._data e = JObj m.
Proof.
  unfold TinybeanEntry.__init__. unfold rbind at 1 2 3. unfold Py.getitem at 1 2 3.
  destruct (m !! "id"); [|discriminate].
  destruct (m !! "uuid"); [|discriminate].
  destruct (m !! "deleted"); [|discriminate].
  destruct (TinybeanEntry.init_type (JObj m)) as [[ty url]|]; [|discriminate].
  cbn [rbind]. rewrite init_location_total. cbn [rbind].
  unfold Py.getitem at 1 2.
  destruct (m !! "caption"); [|discriminate].
  destruct (m !! "blobs"); [|discriminate]. cbn [rbind].
  destruct (TinybeanEntry.init_list TinybeanEmotion.__init__ _ _); [|discriminate].
  destruct (TinybeanEntry.init_list TinybeanComment.__init__ _ _); [|discriminate].
  cbn [rbind]. intros [= <-]. done.
Qed.

(** X2.  A video record is typed by its attachment: whatever its own [type]
    field says, the entry's type is ["VIDEO"] and it carries the mp4 URL;
    any other record takes its type from the [type] field and has no
    video URL. *)
Theorem entry_init_video_branch (m : gmap string jvalue) (e : TinybeanEntry.t) :
  TinybeanEntry.__init__ (JObj m) = Ok e ->
  (m !! "attachmentType" = Some (JStr "VIDEO") ->
   TinybeanEntry.type e = JStr "VIDEO"
   /\ is_Some (TinybeanEntry.video_url e)
   /\ TinybeanEntry.video_url e = m !! "attachmentUrl_mp4")
  /\ (m !! "attachmentType" <> Some (JStr "VIDEO") ->
      m !! "type" = Some (TinybeanEntry.type e)
      /\ TinybeanEntry.video_url e = None).
Proof.
  intros He. apply entry_init_inversion in He as (Hty & _). split; intros Hkind.
  - rewrite (init_type_video m Hkind) in Hty.
    destruct (m !! "attachmentUrl_mp4"); [|discriminate].
    injection Hty as <- <-. eauto.
  - rewrite (init_type_other m Hkind) in Hty.
    destruct (m !! "type"); [|discriminate].
    by injection Hty as <- <-.
Qed.

Lemma entry_init_video_branch_witness :
  exists e : TinybeanEntry.t,
    TinybeanEntry.__init__ (JObj MockEntries.video) = Ok e
    /\ TinybeanEntry.type e = JStr "VIDEO"
    /\ TinybeanEntry.video_url e = Some (JStr "https://v/5.mp4").
Proof.
  destruct (TinybeanEntry.__init__ (JObj MockEntries.video)) as [e|err] eqn:He;
    [|vm_compute in He; discriminate He].
  exists e. split; [reflexivity|].
  destruct (entry_init_video_branch MockEntries.video e He) as [H _].
  destruct (H eq_refl) as (Hty & _ & Hurl).
  split; [exact Hty|]. rewrite Hurl. reflexivity.
Defined.

(** X3.  A record that lacks a required field never constructs: the
    constructor raises [KeyError]. *)
Theorem entry_init_required_fields (m : gmap string jvalue) (k : string) :
  k ∈ entry_required_fields -> m !! k = None ->
  exists k', TinybeanEntry.__init__ (JObj m) = Err (KeyError (JStr k')).
Proof.
  intros Hk Hnone.
  destruct (TinybeanEntry.__init__ (JObj m)) as [e|err] eqn:He.
  - exfalso. apply entry_init_inversion in He as (_ & H1 & H2 & H3 & H4 & H5 & _).
    unfold entry_required_fields in Hk.
    repeat (apply elem_of_cons in Hk as [-> | Hk]; [congruence|]).
    by apply elem_of_nil in Hk.
  - assert (Hpresent : forall v1 v2 v3 v4 v5,
              m !! "id" = Some v1 -> m !! "uuid" = Some v2 ->
              m !! "deleted" = Some v3 -> m !! "caption" = Some v4 ->
              m !! "blobs" = Some v5 -> False).
    { intros v1 v2 v3 v4 v5 H1 H2 H3 H4 H5. unfold entry_required_fields in Hk.
      repeat (apply elem_of_cons in Hk as [-> | Hk]; [congruence|]).
      by apply elem_of_nil in Hk. }
    revert He. unfold TinybeanEntry.__init__. unfold rbind at 1 2 3.
    unfold Py.getitem at 1 2 3.
    destruct (m !! "id") eqn:H1; [|intros [= <-]; eauto].
    destruct (m !! "uuid") eqn:H2; [|intros [= <-]; eauto].
    destruct (m !! "deleted") eqn:H3; [|intros [= <-]; eauto].
    assert (Hty : (exists ty, TinybeanEntry.init_type (JObj m) = Ok ty)
                  \/ exists k', TinybeanEntry.init_type (JObj m)
                                = Err (KeyError (JStr k'))).
    { destruct (Py.eq_str (default JNull (m !! "attachmentType")) "VIDEO") eqn:Hv.
      - apply attachment_is_video in Hv. rewrite (init_type_video m Hv).
        destruct (m !! "attachmentUrl_mp4"); eauto.
      - assert (Hkind : m !! "attachmentType" <> Some (JStr "VIDEO"))
          by (intros H; apply attachment_is_video in H; congruence).
        rewrite (init_type_other m Hkind). destruct (m !! "type"); eauto. }
    destruct Hty as [[ty ->]|[k' ->]]; [|intros [= <-]; eauto].
    cbn [rbind]. rewrite init_location_total. cbn [rbind].
    unfold Py.getitem at 1 2.
    destruct (m !! "caption") eqn:H4; [|intros [= <-]; eauto].
    destruct (m !! "blobs") eqn:H5; [|intros [= <-]; eauto].
    exfalso. eauto.
Qed.

Lemma entry_init_required_fields_witness :
  exists k', TinybeanEntry.__init__ (JObj MockEntries.captionless)
             = Err (KeyError (JStr k')).
Proof.
  apply (entry_init_required_fields MockEntries.captionless "caption");
    [|reflexivity].
  apply list_elem_of_In. simpl. tauto.
Defined.

Lemma append_each_until_KeyError_stops {A : Type} (ctor : jvalue -> result A)
    (good : list jvalue) (parsed : list A) (bad : jvalue) (rest : list jvalue)
    (e : exn) :
  Forall2 (fun x a => ctor x = Ok a) good parsed ->
  ctor bad = Err e ->
  forall acc,
    Py.append_each_until_KeyError ctor acc (good ++ bad :: rest)
    = match e with
      | KeyError _ => Ok (acc ++ parsed)
      | _ => Err e
      end.
Proof.
  intros Hgood Hbad.
  induction Hgood as [|x a good parsed Hx _ IH]; intros acc; simpl.
  - rewrite Hbad, app_nil_r. by destruct e.
  - rewrite Hx, IH, <- app_assoc. reflexivity.
Qed.

(** X4.  The list fields of an entry (emotions, comments) are cut at the first
    element that raises [KeyError]: the elements before it are kept, the
    rest is dropped without a trace and the entry still constructs.  Any
    other exception of an element propagates. *)
Theorem init_list_cut_at_KeyError {A : Type} (ctor : jvalue -> result A)
    (m : gmap string jvalue) (key : string)
    (good : list jvalue) (parsed : list A) (bad : jvalue) (rest : list jvalue)
    (e : exn) :
  m !! key = Some (JList (good ++ bad :: rest)) ->
  Forall2 (fun x a => ctor x = Ok a) good parsed ->
  ctor bad = Err e ->
  TinybeanEntry.init_list ctor (JObj m) key
  = match e with
    | KeyError _ => Ok parsed
    | _ => Err e
    end.
Proof.
  intros Hkey Hgood Hbad. unfold TinybeanEntry.init_list.
  rewrite (getitem_Some _ _ _ Hkey). cbn [Py.iterate].
  apply (append_each_until_KeyError_stops ctor good parsed bad rest e Hgood Hbad []).
Qed.

Lemma init_list_cut_at_KeyError_witness :
  TinybeanEntry.init_list TinybeanEmotion.__init__
    (JObj {[ "emotions" :=
               JList [MockEmotions.emotion 1; MockEmotions.broken; MockEmotions.emotion 3] ]})
    "emotions"
  = Ok [MockEmotions.parsed 1]
  /\ TinybeanEntry.init_list TinybeanEmotion.__init__
       (JObj {[ "emotions" := JList [MockEmotions.emotion 1; JInt 7] ]})
       "emotions"
     = Err TypeError.
Proof.
  split.
  - exact (init_list_cut_at_KeyError TinybeanEmotion.__init__
             {[ "emotions" :=
                  JList [MockEmotions.emotion 1; MockEmotions.broken;
                         MockEmotions.emotion 3] ]}
             "emotions" [MockEmotions.emotion 1] [MockEmotions.parsed 1]
             MockEmotions.broken [MockEmotions.emotion 3]
             (KeyError (JStr "userId")) eq_refl
             ltac:(repeat constructor) eq_refl).
  - exact (init_list_cut_at_KeyError TinybeanEmotion.__init__
             {[ "emotions" := JList [MockEmotions.emotion 1; JInt 7] ]}
             "emotions" [MockEmotions.emotion 1] [MockEmotions.parsed 1]
             (JInt 7) [] TypeError eq_refl
             ltac:(repeat constructor) eq_refl).
Defined.

(** ** Followings *)

Lemma append_each_Forall {A : Type} (ctor : jvalue -> result A) (P : A -> Prop) :
  (forall x a, ctor x = Ok a -> P a) ->
  forall items acc out,
    Forall P acc -> Py.append_each ctor acc items = Ok out ->
    Forall P out /\ length out = (length acc + length items)%nat.
Proof.
  intros Hctor. induction items as [|x items IH]; intros acc out Hacc; simpl.
  - intros [= <-]. split; [done|lia].
  - destruct (ctor x) as [a|] eqn:Hx; [|discriminate]. intros Hout.
    destruct (IH (acc ++ [a]) out) as [HP Hlen]; [|exact Hout|].
    + apply Forall_app. split; [done|]. constructor; [eauto|constructor].
    + split; [done|]. rewrite Hlen, length_app. simpl. lia.
Qed.

(** X5.  Every child of a constructed journal points back to that journal,
    and there is one child per record of the [children] list. *)
Theorem journal_init_back_reference (strptime : jvalue -> string -> result (Z * Z * Z))
    (m : gmap string jvalue) (records : list jvalue) (j : TinybeanJournalFull.t) :
  m !! "children" = Some (JList records) ->
  TinybeanJournal__init__ strptime (JObj m) = Ok j ->
  m !! "id" = Some (TinybeanJournal.id (TinybeanJournalFull.journal j))
  /\ m !! "title" = Some (TinybeanJournal.title (TinybeanJournalFull.journal j))
  /\ Forall (fun c => TinybeanChild.journal c = TinybeanJournalFull.journal j)
       (TinybeanJournalFull.children j)
  /\ length (TinybeanJournalFull.children j) = length records.
Proof.
  intros Hrecords. unfold TinybeanJournal__init__. unfold rbind at 1 2.
  unfold Py.getitem at 1 2.
  destruct (m !! "id") as [id|]; [|discriminate].
  destruct (m !! "title") as [title|]; [|discriminate].
  cbv zeta. rewrite (getitem_Some _ _ _ Hrecords). cbn [rbind Py.iterate].
  destruct (Py.append_each _ [] records) as [children|] eqn:Hchildren; [|discriminate].
  intros [= <-]. cbn. split; [done|]. split; [done|].
  apply (append_each_Forall
           (TinybeanChild__init__ strptime (TinybeanJournal.mk id title))
           (fun c => TinybeanChild.journal c = TinybeanJournal.mk id title))
    in Hchildren; [exact Hchildren| |constructor].
  intros x c. unfold TinybeanChild__init__, rbind.
  repeat (match goal with |- context [match ?r with Ok _ => _ | Err _ => _ end] =>
                            destruct r; [|discriminate] end).
  by intros [= <-].
Qed.

Lemma journal_init_back_reference_witness :
  exists j : TinybeanJournalFull.t,
    TinybeanJournal__init__ MockFollowings.strptime
      (MockFollowings.journal_record 10
         [MockFollowings.child_record 100; MockFollowings.child_record 101])
    = Ok j
    /\ Forall (fun c => TinybeanChild.journal c = TinybeanJournalFull.journal j)
         (TinybeanJournalFull.children j)
    /\ length (TinybeanJournalFull.children j) = 2%nat.
Proof.
  eexists. split; [vm_compute; reflexivity|].
  refine (proj2 (proj2 (journal_init_back_reference MockFollowings.strptime
                          (list_to_map
                             [("id", JInt 10); ("title", JStr "Family");
                              ("children",
                               JList [MockFollowings.child_record 100;
                                      MockFollowings.child_record 101])])
                          [MockFollowings.child_record 100;
                           MockFollowings.child_record 101]
                          _ eq_refl eq_refl))).
Defined.

Lemma fold_left_extend {A B : Type} (g : A -> list B) (xs : list A) :
  forall acc, fold_left (fun acc x => acc ++ g x) xs acc = acc ++ concat (g <$> xs).
Proof.
  induction xs as [|x xs IH]; intros acc; simpl.
  - by rewrite app_nil_r.
  - by rewrite IH, app_assoc.
Qed.

(** X6.  [children] sends one GET for the followings and returns the children
    of all followed journals, journal by journal in the order the server
    lists them; the client is otherwise untouched. *)
Theorem children_concatenates (strptime : jvalue -> string -> result (Z * Z * Z))
    (env : Env.t) (w : World.t) (response : Response.t) (m : gmap string jvalue)
    (records : list jvalue) (followings : list TinybeanFollowing.t) :
  Env.session_request env (World.trace w) (followings_request env (World.self w))
  = Ok response ->
  Response.body response = Some (JObj m) ->
  m !! "followings" = Some (JList records) ->
  Forall2 (fun x f => TinybeanFollowing__init__ strptime x = Ok f) records followings ->
  children strptime env w
  = (Returns
       (concat
          ((fun f => TinybeanJournalFull.children (TinybeanFollowing.journal f))
             <$> followings)),
     World.emit (EvRequest (followings_request env (World.self w))) w).
Proof.
  intros Hresp Hbody Hkey Hall.
  cbv [children get_followings bind]. rewrite _api_eq.
  fold (followings_request env (World.self w)).
  cbv [session_request]. rewrite Hresp.
  unfold Response.json. rewrite Hbody. cbn [rbind].
  rewrite (getitem_Some _ _ _ Hkey). cbn [rbind Py.iterate].
  rewrite (append_each_all _ _ _ Hall []). cbn [lift app]. cbv [ret].
  by rewrite fold_left_extend.
Qed.

Lemma children_concatenates_witness :
  length
    (match (children MockFollowings.strptime
              (Mock.env [Mock.ok MockFollowings.followings] [] 0) World.init).1 with
     | Returns cs => cs
     | _ => []
     end)
  = 3%nat.
Proof.
  pose proof (children_concatenates MockFollowings.strptime
                (Mock.env [Mock.ok MockFollowings.followings] [] 0) World.init
                (Response.mk 200 (Some MockFollowings.followings))
                {[ "followings" :=
                     JList [MockFollowings.following_record 1
                              (MockFollowings.journal_record 10
                                 [MockFollowings.child_record 100;
                                  MockFollowings.child_record 101]);
                            MockFollowings.following_record 2
                              (MockFollowings.journal_record 20
                                 [MockFollowings.child_record 200])] ]}
                _ _ eq_refl eq_refl eq_refl
                ltac:(repeat econstructor)) as H.
  rewrite H. reflexivity.
Defined.

(** ** More on uploads *)

Lemma string_app_nil_r (s : string) : s +:+ "" = s.
Proof.
  induction s as [|c s IH]; [reflexivity|].
  change (String c (s +:+ "") = String c s). by rewrite IH.
Qed.

Lemma string_app_snoc (cur : string) (c : ascii) (s : string) :
  (cur +:+ String c "") +:+ s = cur +:+ String c s.
Proof.
  induction cur as [|d cur IH]; [reflexivity|].
  change (String d ((cur +:+ String c "") +:+ s) = String d (cur +:+ String c s)).
  by rewrite IH.
Qed.

Lemma has_dot_app (a b : string) : has_dot (a +:+ b) = has_dot a || has_dot b.
Proof.
  induction a as [|c a IH]; [reflexivity|].
  change (Ascii.eqb c "." || has_dot (a +:+ b)
          = Ascii.eqb c "." || has_dot a || has_dot b).
  by rewrite IH, orb_assoc.
Qed.

Lemma split_dot_last_from_dotless (s : string) :
  has_dot s = false ->
  forall cur, Py.split_dot_last_from cur s = cur +:+ s.
Proof.
  induction s as [|c s IH]; intros Hs cur; simpl in *.
  - by rewrite string_app_nil_r.
  - apply orb_false_iff in Hs as [Hc Hs]. rewrite Hc, (IH Hs).
    apply string_app_snoc.
Qed.

Lemma split_dot_last_from_app (stem ext : string) :
  forall cur,
    Py.split_dot_last_from cur (stem +:+ "." +:+ ext) = Py.split_dot_last_from "" ext.
Proof.
  induction stem as [|c stem IH]; intros cur.
  - reflexivity.
  - change (Py.split_dot_last_from cur (String c (stem +:+ "." +:+ ext))
            = Py.split_dot_last_from "" ext).
    simpl. destruct (Ascii.eqb c "."); apply IH.
Qed.

Lemma split_dot_last_from_no_dot (s : string) :
  forall cur, has_dot cur = false -> has_dot (Py.split_dot_last_from cur s) = false.
Proof.
  induction s as [|c s IH]; intros cur Hcur; simpl; [done|].
  destruct (Ascii.eqb c ".") eqn:Hc; [by apply IH|].
  apply IH. rewrite has_dot_app, Hcur. simpl. by rewrite Hc.
Qed.

(** X10.  The extension [upload_media] gives the remote object is what follows
    the last dot of the path: the extension of [stem.ext], the whole path
    when the path has no dot at all, and never a string with a dot. *)
Theorem split_dot_last_extension (stem ext s : string) :
  (has_dot ext = false -> Py.split_dot_last (stem +:+ "." +:+ ext) = ext)
  /\ (has_dot s = false -> Py.split_dot_last s = s)
  /\ has_dot (Py.split_dot_last s) = false.
Proof.
  unfold Py.split_dot_last. split; [|split].
  - intros Hext. rewrite split_dot_last_from_app.
    by rewrite (split_dot_last_from_dotless ext Hext "").
  - intros Hs. by rewrite (split_dot_last_from_dotless s Hs "").
  - by apply split_dot_last_from_no_dot.
Qed.

Lemma split_dot_last_extension_witness :
  Py.split_dot_last ("/tmp/a.b" +:+ "." +:+ "jpg") = "jpg"
  /\ Py.split_dot_last "/tmp/README" = "/tmp/README".
Proof.
  split.
  - exact (proj1 (split_dot_last_extension "/tmp/a.b" "jpg" "") eq_refl).
  - exact (proj1 (proj2 (split_dot_last_extension "" "" "/tmp/README")) eq_refl).
Defined.

(** X11.  With [total_items] 0 the file is uploaded and then line 243 divides
    by zero: the call raises [ZeroDivisionError] and the uploaded object
    is never registered. *)
Theorem upload_media_zero_total (env : Env.t) (w : World.t)
    (mediaItem : MediaItem.t) (s3Client : option S3Client.t)
    (index size : Z) (s3 : S3Client.t) (ready : World.t) :
  Env.stat_st_size env (World.trace w) (MediaItem.file mediaItem) = Ok size ->
  match s3Client with
  | Some client => (Returns client, upload_prelude w)
  | None => s3_client env (upload_prelude w)
  end = (Returns s3, ready) ->
  let call :=
    upload_call s3 mediaItem (remote_file_name env (World.uuids_drawn w) mediaItem) in
  let run := upload_media env mediaItem s3Client index 0 w in
  run.1 = Raises ZeroDivisionError
  /\ World.trace run.2 = World.trace ready ++ [EvUploadFile call]
  /\ World.requests (World.trace run.2) = World.requests (World.trace w).
Proof.
  intros Hstat Hready call run.
  destruct (upload_media_from_ready env w mediaItem s3Client index 0 size s3 ready
              Hstat Hready) as (uploaded & Hrun & Htrace & _).
  change (Py.true_divide index 0) with (@Err unit ZeroDivisionError) in Hrun.
  subst run. rewrite Hrun. cbn. split; [done|]. split; [exact Htrace|].
  rewrite Htrace.
  assert (Hreq : World.requests (World.trace ready) = World.requests (World.trace w)).
  { destruct s3Client as [client|].
    - injection Hready as <- <-. reflexivity.
    - apply s3_client_frame in Hready as (_ & _ & _ & evs & -> & Hnone & _).
      unfold World.requests in *. by rewrite omap_app, Hnone, app_nil_r. }
  unfold World.requests in *. rewrite omap_app, Hreq. cbn. by rewrite app_nil_r.
Qed.

Lemma upload_media_zero_total_witness :
  (upload_media MockUpload.env MockUpload.photo (Some MockUpload.client) 1 0
     World.init).1
  = Raises ZeroDivisionError
  /\ length
       (World.uploads
          (World.trace
             (upload_media MockUpload.env MockUpload.photo
                (Some MockUpload.client) 1 0 World.init).2))
     = 1%nat
  /\ World.requests
       (World.trace
          (upload_media MockUpload.env MockUpload.photo (Some MockUpload.client)
             1 0 World.init).2)
     = [].
Proof.
  pose proof (upload_media_zero_total MockUpload.env World.init MockUpload.photo
                (Some MockUpload.client) 1 1024 MockUpload.client
                (upload_prelude World.init) eq_refl eq_refl) as H.
  cbv zeta in H. destruct H as (Hres & Htrace & Hreq).
  rewrite Hres, Hreq, Htrace. repeat split.
Defined.

(** X12.  Nothing reaches the object store or the API when the file cannot be
    read, or when no client was given and none can be acquired: the call
    raises that error. *)
Theorem upload_media_fails_before_upload (env : Env.t) (w : World.t)
    (mediaItem : MediaItem.t) (s3Client : option S3Client.t)
    (index total_items : Z) (e : exn) :
  Env.stat_st_size env (World.trace w) (MediaItem.file mediaItem) = Err e
  \/ (s3Client = None
      /\ (exists size,
            Env.stat_st_size env (World.trace w) (MediaItem.file mediaItem) = Ok size)
      /\ (s3_client env (upload_prelude w)).1 = Raises e) ->
  let run := upload_media env mediaItem s3Client index total_items w in
  run.1 = Raises e
  /\ World.uploads (World.trace run.2) = World.uploads (World.trace w)
  /\ World.requests (World.trace run.2) = World.requests (World.trace w).
Proof.
  intros Hfail run. subst run. rewrite upload_media_unfold.
  destruct Hfail as [Hstat | (-> & [size Hstat] & Hscope)]; rewrite Hstat.
  - done.
  - cbv zeta. cbv [bind].
    destruct (s3_client env (upload_prelude w)) as [o failed] eqn:Hrun.
    cbn [fst] in Hscope. subst o. cbn [fst snd]. split; [done|].
    apply s3_client_frame in Hrun as (_ & _ & _ & evs & -> & Hreq & Hup & _).
    cbn [upload_prelude World.trace].
    unfold World.uploads, World.requests in *.
    by rewrite !omap_app, Hreq, Hup, !app_nil_r.
Qed.

Lemma upload_media_fails_before_upload_witness :
  (upload_media
     (Env.mk String.append Mock.str (fun _ _ => Mock.ok JNull)
        (fun _ _ => Ok Mock.credentials) (fun _ _ => MockUpload.failing)
        (fun _ _ => Err (OSError "No such file")) Mock.uuid4 ∅ (fun _ => 0) 0)
     MockUpload.photo None 1 1 World.init).1
  = Raises (OSError "No such file").
Proof.
  exact (proj1 (upload_media_fails_before_upload
                  (Env.mk String.append Mock.str (fun _ _ => Mock.ok JNull)
                     (fun _ _ => Ok Mock.credentials) (fun _ _ => MockUpload.failing)
                     (fun _ _ => Err (OSError "No such file")) Mock.uuid4 ∅
                     (fun _ => 0) 0)
                  World.init MockUpload.photo None 1 1 (OSError "No such file")
                  (or_introl eq_refl))).
Defined.

Lemma registration_body_remoteFileName (mediaItem : MediaItem.t) (key : string) :
  Py.getitem (registration_body mediaItem key) "remoteFileName" = Ok (JStr key)
  /\ Py.getitem (registration_body mediaItem key) "children"
     = Ok (JList (TinybeanChild.id <$> MediaItem.children mediaItem)).
Proof. split; reflexivity. Qed.

(** X13.  In every run [upload_media] uploads at most once and posts at most
    once, and it posts only after the upload: the POST registers, under
    [remoteFileName], the very key the file was uploaded under. *)
Theorem upload_media_upload_then_register (env : Env.t) (w : World.t)
    (mediaItem : MediaItem.t) (s3Client : option S3Client.t)
    (index total_items : Z) :
  let key := remote_file_name env (World.uuids_drawn w) mediaItem in
  let post := registration_request env (World.self w) mediaItem key in
  exists pre tail,
    World.trace (upload_media env mediaItem s3Client index total_items w).2
    = World.trace w ++ pre ++ tail
    /\ World.requests pre = [] /\ World.uploads pre = []
    /\ (tail = []
        \/ exists s3,
             UploadCall.Key (upload_call s3 mediaItem key) = key
             /\ (tail = [EvUploadFile (upload_call s3 mediaItem key)]
                 \/ tail = [EvUploadFile (upload_call s3 mediaItem key); EvRequest post]))
    /\ (exists body, Request.json post = Some body
                     /\ Py.getitem body "remoteFileName" = Ok (JStr key)).
Proof.
  intros key post.
  assert (Hbody : exists body, Request.json post = Some body
                               /\ Py.getitem body "remoteFileName" = Ok (JStr key))
    by (eexists; split; reflexivity).
  destruct (Env.stat_st_size env (World.trace w) (MediaItem.file mediaItem))
    as [size|e] eqn:Hstat.
  2:{ rewrite upload_media_unfold, Hstat. exists [], []. cbn.
      rewrite app_nil_r. by repeat split; [..|left|]. }
  destruct (match s3Client with
            | Some client => (Returns client, upload_prelude w)
            | None => s3_client env (upload_prelude w)
            end) as [o ready] eqn:Hready.
  assert (Hevs : exists pre, World.trace ready = World.trace w ++ pre
                             /\ World.requests pre = [] /\ World.uploads pre = []).
  { destruct s3Client as [client|].
    - injection Hready as <- <-. exists []. by rewrite app_nil_r.
    - apply s3_client_frame in Hready as (_ & _ & _ & pre & Htr & Hreq & Hup & _).
      exists pre. by repeat split. }
  destruct Hevs as (pre & Htr0 & Hreq0 & Hup0).
  destruct o as [s3|e|].
  - destruct (upload_media_from_ready env w mediaItem s3Client index total_items
                size s3 ready Hstat Hready)
      as (uploaded & Hrun & Htrace & _).
    rewrite Hrun. exists pre.
    destruct (Py.true_divide index total_items); cbn [snd World.trace World.emit].
    + exists [EvUploadFile (upload_call s3 mediaItem key); EvRequest post].
      rewrite Htrace, Htr0, <- !app_assoc. repeat split; try done.
      right. exists s3. split; [done|by right].
    + exists [EvUploadFile (upload_call s3 mediaItem key)].
      rewrite Htrace, Htr0, <- app_assoc. repeat split; try done.
      right. exists s3. split; [done|by left].
  - destruct s3Client as [client|]; [discriminate|].
    rewrite upload_media_unfold, Hstat. cbv zeta. cbv [bind]. rewrite Hready.
    exists pre, []. rewrite app_nil_r. repeat split; try done. by left.
  - destruct s3Client as [client|]; [discriminate|].
    rewrite upload_media_unfold, Hstat. cbv zeta. cbv [bind]. rewrite Hready.
    exists pre, []. rewrite app_nil_r. repeat split; try done. by left.
Qed.

Lemma s3_client_with_identity (env : Env.t) (w : World.t) (identity_id : string) :
  Env.environ env !! "IDENTITY_ID" = Some identity_id ->
  (s3_client env w).2 = World.emit (EvGetCredentials identity_id) w.
Proof.
  intros Hid. cbv [s3_client bind os_environ get_credentials_for_identity].
  rewrite Hid. cbv [ret].
  destruct (Env.get_credentials_for_identity env _ _) as [cr|e]; [|reflexivity].
  cbv [lift].
  destruct (rbind (Py.getitem cr "Credentials") (fun c => Py.getitem c "AccessKeyId"));
    cbv [ret raise]; [|reflexivity].
  destruct (rbind (Py.getitem cr "Credentials") (fun c => Py.getitem c "SecretKey"));
    [|reflexivity].
  destruct (rbind (Py.getitem cr "Credentials") (fun c => Py.getitem c "SessionToken"));
    reflexivity.
Qed.

(** X14.  An empty batch still exchanges credentials: with the identity
    configured, [upload_medias([])] makes the one call to the identity
    service and nothing else, and it fails if that exchange fails. *)
Theorem upload_medias_empty (env : Env.t) (w : World.t) (identity_id : string) :
  Env.environ env !! "IDENTITY_ID" = Some identity_id ->
  World.trace (upload_medias env [] w).2
  = World.trace w ++ [EvGetCredentials identity_id]
  /\ (upload_medias env [] w).1
     = match (s3_client env w).1 with
       | Returns _ => Returns tt
       | Raises e => Raises e
       | OutOfFuel => OutOfFuel
       end.
Proof.
  intros Hid. pose proof (s3_client_with_identity env w identity_id Hid) as Htrace.
  cbv [upload_medias bind]. destruct (s3_client env w) as [[s3|e|] w'];
    cbn [fst snd] in *; subst w'; done.
Qed.

Lemma upload_medias_empty_witness :
  upload_medias MockUpload.env [] World.init
  = (Returns tt, World.emit (EvGetCredentials "us-east-1:identity") World.init).
Proof.
  destruct (upload_medias_empty MockUpload.env World.init "us-east-1:identity"
              eq_refl) as [Htrace Hres].
  destruct (upload_medias MockUpload.env [] World.init) as [o w'] eqn:Hrun.
  cbn [fst snd] in *. rewrite Hres.
  vm_compute in Hrun. by injection Hrun as <- <-.
Defined.

Lemma enumerate_from_app {A : Type} (xs ys : list A) :
  forall i,
    enumerate_from i (xs ++ ys)
    = enumerate_from i xs ++ enumerate_from (i + Z.of_nat (length xs)) ys.
Proof.
  induction xs as [|x xs IH]; intros i; simpl.
  - by rewrite Z.add_0_r.
  - rewrite IH. do 3 f_equal. lia.
Qed.

Lemma for_each_app {A : Type} (body : A -> M unit) (xs ys : list A) :
  forall w,
    for_each body (xs ++ ys) w
    = match for_each body xs w with
      | (Returns _, w') => for_each body ys w'
      | r => r
      end.
Proof.
  induction xs as [|x xs IH]; intros w; simpl; [reflexivity|].
  cbv [bind]. destruct (body x w) as [[[]|e|] w']; [apply IH|reflexivity..].
Qed.

(** X15.  A batch stops at the first item that fails: when the items before it
    went through and [upload_media] raises on it, [upload_medias] raises
    the same exception in the state of that failure, so no later item is
    uploaded or registered. *)
Theorem upload_medias_stops_at_failure (env : Env.t) (w : World.t)
    (finished : list MediaItem.t) (item : MediaItem.t) (rest : list MediaItem.t)
    (s3 : S3Client.t) (ready mid failed : World.t) (e : exn) :
  let total := Z.of_nat (length (finished ++ item :: rest)) in
  s3_client env w = (Returns s3, ready) ->
  for_each (fun '(index, it) => upload_media env it (Some s3) index total)
    (enumerate_from 0 finished) ready
  = (Returns tt, mid) ->
  upload_media env item (Some s3) (Z.of_nat (length finished)) total mid
  = (Raises e, failed) ->
  upload_medias env (finished ++ item :: rest) w = (Raises e, failed).
Proof.
  intros total Hscope Hfinished Hitem.
  cbv [upload_medias bind]. rewrite Hscope. fold total.
  rewrite enumerate_from_app, for_each_app, Hfinished.
  cbn [enumerate_from for_each]. cbv [bind].
  rewrite Z.add_0_l, Hitem. reflexivity.
Qed.

Lemma upload_medias_stops_at_failure_witness :
  (upload_medias MockBatch.env [MockUpload.photo; MockUpload.clip; MockUpload.photo]
     World.init).1
  = Raises (RemoteError "script exhausted")
  /\ length
       (World.uploads
          (World.trace
             (upload_medias MockBatch.env
                [MockUpload.photo; MockUpload.clip; MockUpload.photo] World.init).2))
     = 2%nat.
Proof.
  pose proof (upload_medias_stops_at_failure MockBatch.env World.init
                [MockUpload.photo] MockUpload.clip [MockUpload.photo]
                MockUpload.client _ _ _ (RemoteError "script exhausted")
                eq_refl eq_refl eq_refl) as H.
  cbn [app] in H. rewrite H. split; reflexivity.
Defined.

Lemma fold_callback_bytes (progress : list Z) :
  forall (s : Self.t) (n : Z),
    Self.bytes_uploaded s = Some n ->
    Self.bytes_uploaded (fold_left (fun s n => callback n s) progress s)
    = Some (n + fold_right Z.add 0 progress).
Proof.
  induction progress as [|k progress IH]; intros s n Hn; cbn [fold_left fold_right].
  - by rewrite Z.add_0_r.
  - rewrite (IH (callback k s) (n + k)).
    + f_equal. lia.
    + unfold callback. cbn. by rewrite Hn.
Qed.

Lemma try_upload_bytes (env : Env.t) (s3 : S3Client.t) (path key : string)
    (w : World.t) (n : Z) :
  Self.bytes_uploaded (World.self w) = Some n ->
  Self.bytes_uploaded (World.self (try_upload env s3 path key w).2)
  = Some (n + fold_right Z.add 0
                (UploadOutcome.progress
                   (Env.upload_file env (World.trace w)
                      (UploadCall.mk s3 path "tinybeans-remote-upload-prod" key)))).
Proof.
  intros Hn. cbv [try_upload try_except upload_file logging_error].
  destruct (UploadOutcome.raised _);
    cbn [snd World.self World.with_self World.emit];
    by apply fold_callback_bytes.
Qed.

(** X16.  The byte counter restarts with every call: once the upload has been
    attempted, [self.bytes_uploaded] is the sum of the byte counts the
    object store reported for this file, whether or not the upload or the
    registration succeeded. *)
Theorem upload_media_counts_bytes (env : Env.t) (w : World.t)
    (mediaItem : MediaItem.t) (s3Client : option S3Client.t)
    (index total_items size : Z) (s3 : S3Client.t) (ready : World.t) :
  Env.stat_st_size env (World.trace w) (MediaItem.file mediaItem) = Ok size ->
  match s3Client with
  | Some client => (Returns client, upload_prelude w)
  | None => s3_client env (upload_prelude w)
  end = (Returns s3, ready) ->
  let call :=
    upload_call s3 mediaItem (remote_file_name env (World.uuids_drawn w) mediaItem) in
  Self.bytes_uploaded
    (World.self (upload_media env mediaItem s3Client index total_items w).2)
  = Some (fold_right Z.add 0
            (UploadOutcome.progress (Env.upload_file env (World.trace ready) call))).
Proof.
  intros Hstat Hready call.
  assert (Hzero : Self.bytes_uploaded (World.self ready) = Some 0).
  { destruct s3Client as [client|].
    - injection Hready as <- <-. reflexivity.
    - apply s3_client_frame in Hready as (-> & _). reflexivity. }
  pose proof (try_upload_bytes env s3 (MediaItem.file mediaItem)
                (remote_file_name env (World.uuids_drawn w) mediaItem) ready 0 Hzero)
    as Hbytes.
  rewrite Z.add_0_l in Hbytes.
  destruct (try_upload_returns env s3 (MediaItem.file mediaItem)
              (remote_file_name env (World.uuids_drawn w) mediaItem) ready)
    as (uploaded & Hup & _).
  rewrite Hup in Hbytes. cbn [snd] in Hbytes.
  rewrite upload_media_unfold, Hstat. cbv zeta.
  assert (Hscope :
    match s3Client with
    | Some client =>
        try_upload env client (MediaItem.file mediaItem)
          (remote_file_name env (World.uuids_drawn w) mediaItem)
    | None =>
        (s3 <- s3_client env ;;
         try_upload env s3 (MediaItem.file mediaItem)
           (remote_file_name env (World.uuids_drawn w) mediaItem))%M
    end (upload_prelude w) = (Returns tt, uploaded)).
  { destruct s3Client as [client|].
    - injection Hready as -> <-. exact Hup.
    - cbv [bind]. rewrite Hready. exact Hup. }
  cbv [bind] in Hscope |- *. rewrite Hscope.
  destruct (Py.true_divide index total_items); cbn [lift]; cbv [ret raise];
    [|exact Hbytes].
  rewrite _api_eq. cbv [session_request].
  destruct (Env.session_request env _ _); exact Hbytes.
Qed.

Lemma upload_media_counts_bytes_witness :
  Self.bytes_uploaded
    (World.self
       (upload_media MockUpload.env MockUpload.photo (Some MockUpload.client) 1 1
          World.init).2)
  = Some 10.
Proof.
  exact (upload_media_counts_bytes MockUpload.env World.init MockUpload.photo
           (Some MockUpload.client) 1 1 1024 MockUpload.client
           (upload_prelude World.init) eq_refl eq_refl).
Defined.

(** ** More on pagination *)

(** X17.  Whatever the flag and whatever the server sends, no entry that
    [get_entries] returns is deleted. *)
Theorem get_entries_never_returns_deleted (env : Env.t) (fuel : nat)
    (child : TinybeanChild.t) (last : option Z) (get_deleted_entries : bool)
    (w w' : World.t) (returned : list TinybeanEntry.t) :
  get_entries env fuel child last get_deleted_entries w = (Returns returned, w') ->
  Forall (fun e => Py.truthy (TinybeanEntry.deleted e) = false) returned.
Proof.
  cbv [get_entries bind].
  destruct (match last with Some l => ret (JInt l) | None => default_last env end w)
    as [[cursor|e|] w0]; [|discriminate..].
  destruct (fetch_page env child cursor w0) as [[response|e|] w1]; [|discriminate..].
  destruct (lift (append_page [] response) w1) as [[entries|e|] w2]; [|discriminate..].
  destruct (lift _ w2) as [[remaining|e|] w3]; [|discriminate..].
  destruct (pagination env fuel child response entries w3) as [[all|e|] w4];
    [|discriminate..].
  cbv [ret]. intros [= <- _]. apply Forall_forall. intros e He.
  apply list_elem_of_In, filter_In in He as [_ He].
  unfold keep in He. apply andb_true_iff in He as [He _].
  by apply negb_true_iff in He.
Qed.

Lemma get_entries_never_returns_deleted_witness :
  Forall (fun e => Py.truthy (TinybeanEntry.deleted e) = false)
    [MockPages.parsed 1 false 300; MockPages.parsed 3 false 100].
Proof.
  exact (get_entries_never_returns_deleted (MockPages.env MockPages.three_pages) 3
           Mock.child (Some 1000) false World.init
           _
           [MockPages.parsed 1 false 300; MockPages.parsed 3 false 100]
           eq_refl).
Defined.




(** X19.  A page that reports entries remaining and carries none makes the
    next cursor unreadable: [get_entries] raises [IndexError] after the
    request that fetched it, here the first. *)
Theorem get_entries_empty_page_raises (env : Env.t) (fuel : nat)
    (child : TinybeanChild.t) (last : option Z) (get_deleted_entries : bool)
    (w : World.t) (response : Response.t) (remaining : Z) :
  let first := page_request env (World.self w) child (first_cursor env w last) in
  Env.session_request env (World.trace w) first = Ok response ->
  is_page response [] remaining -> 0 < remaining -> (0 < fuel)%nat ->
  get_entries env fuel child last get_deleted_entries w
  = (Raises IndexError, World.emit (EvRequest first) w).
Proof.
  intros first Hresp Hpage Hpos Hfuel.
  rewrite (get_entries_first_page env fuel child last get_deleted_entries w
             response [] remaining [] Hresp Hpage ltac:(constructor)).
  fold first. destruct fuel as [|fuel]; [lia|].
  destruct (is_page_json _ _ _ Hpage) as (m & Hjson & Hentries & Hremaining).
  cbv [bind]. cbn [pagination]. cbv [bind lift]. rewrite Hjson. cbn [rbind].
  rewrite (getitem_Some _ _ _ Hremaining). cbn [rbind Py.gt0].
  replace (0 <? remaining) with true by (symmetry; apply Z.ltb_lt; lia).
  cbv [ret]. rewrite (getitem_Some _ _ _ Hentries). reflexivity.
Qed.

Lemma get_entries_empty_page_raises_witness :
  (get_entries (MockPages.env [Mock.ok (Mock.page [] 5)]) 3 Mock.child (Some 1000)
     false World.init).1
  = Raises IndexError.
Proof.
  pose proof (get_entries_empty_page_raises (MockPages.env [Mock.ok (Mock.page [] 5)])
                3 Mock.child (Some 1000) false World.init
                (Response.mk 200 (Some (Mock.page [] 5))) 5) as H.
  cbv zeta in H. rewrite H.
  - reflexivity.
  - reflexivity.
  - eexists. repeat split; reflexivity.
  - reflexivity.
  - apply le_S, le_S, le_n.
Defined.

Lemma with_trace_nil (w : World.t) : with_trace (World.trace w ++ []) w = w.
Proof. destruct w. unfold with_trace. cbn. by rewrite app_nil_r. Qed.

Lemma page_request_is_page_fetch (env : Env.t) (self : Self.t)
    (child : TinybeanChild.t) (last : jvalue) :
  is_page_fetch env child (page_request env self child last).
Proof. unfold is_page_fetch, page_request, api_request. cbn. eauto 6. Qed.

Lemma pagination_only_fetches (env : Env.t) (child : TinybeanChild.t) (fuel : nat) :
  forall (response : Response.t) (entries : list TinybeanEntry.t) (w : World.t),
    exists requests,
      (pagination env fuel child response entries w).2
      = with_trace (World.trace w ++ (EvRequest <$> requests)) w
      /\ Forall (is_page_fetch env child) requests.
Proof.
  induction fuel as [|fuel IH]; intros response entries w.
  - exists []. cbn [pagination snd fmap list_fmap]. by rewrite with_trace_nil.
  - cbn [pagination]. cbv [bind].
    step_lift as more;
      [|exists []; cbn [snd fmap list_fmap]; by rewrite with_trace_nil].
    destruct more;
      [|exists []; cbn [snd fmap list_fmap]; by rewrite with_trace_nil].
    step_lift as cursor;
      [|exists []; cbn [snd fmap list_fmap]; by rewrite with_trace_nil].
    rewrite fetch_page_eq. cbv [session_request].
    set (q := page_request env (World.self w) child cursor).
    assert (Hq : is_page_fetch env child q) by apply page_request_is_page_fetch.
    assert (Hstop : exists requests,
              World.emit (EvRequest q) w
              = with_trace (World.trace w ++ (EvRequest <$> requests)) w
              /\ Forall (is_page_fetch env child) requests).
    { exists [q]. split; [reflexivity|by constructor]. }
    destruct (Env.session_request env (World.trace w) q) as [response'|e];
      [|exact Hstop].
    step_lift as present; [|exact Hstop].
    assert (Hnext : forall entries',
              exists requests,
                (pagination env fuel child response' entries'
                   (World.emit (EvRequest q) w)).2
                = with_trace (World.trace w ++ (EvRequest <$> requests)) w
                /\ Forall (is_page_fetch env child) requests).
    { intros entries'.
      destruct (IH response' entries' (World.emit (EvRequest q) w))
        as (requests & Hrun & Hall).
      exists (q :: requests). split; [|by constructor].
      rewrite Hrun. unfold with_trace. cbn. by rewrite <- app_assoc. }
    destruct present; [step_lift as entries'; [apply Hnext|exact Hstop]|].
    apply Hnext.
Qed.

(** X20.  [get_entries] only reads: in every run, whatever the server answers
    and however the call ends, it sends at least one request, every
    request it sends is a GET for 200 entries of the child's own journal,
    and the client (token, user, counters) is left as it was. *)
Theorem get_entries_only_fetches (env : Env.t) (fuel : nat)
    (child : TinybeanChild.t) (last : option Z) (get_deleted_entries : bool)
    (w : World.t) :
  exists requests,
    (get_entries env fuel child last get_deleted_entries w).2
    = with_trace (World.trace w ++ (EvRequest <$> requests)) w
    /\ requests <> []
    /\ Forall (is_page_fetch env child) requests.
Proof.
  cbv [get_entries]. cbv [bind].
  assert (Hcursor :
    match last with Some l => ret (JInt l) | None => default_last env end w
    = (Returns (first_cursor env w last), w)).
  { destruct last as [l|]; [reflexivity|apply default_last_value]. }
  rewrite Hcursor. rewrite fetch_page_eq. cbv [session_request].
  set (q := page_request env (World.self w) child (first_cursor env w last)).
  assert (Hq : is_page_fetch env child q) by apply page_request_is_page_fetch.
  assert (Hstop : exists requests,
            World.emit (EvRequest q) w
            = with_trace (World.trace w ++ (EvRequest <$> requests)) w
            /\ requests <> []
            /\ Forall (is_page_fetch env child) requests).
  { exists [q]. split; [reflexivity|]. split; [done|by constructor]. }
  destruct (Env.session_request env (World.trace w) q) as [response|e];
    [|exact Hstop].
  step_lift as entries; [|exact Hstop].
  step_lift as remaining; [|exact Hstop].
  destruct (pagination_only_fetches env child fuel response entries
              (World.emit (EvRequest q) w)) as (requests & Hrun & Hall).
  exists (q :: requests).
  split; [|split; [done|by constructor]].
  destruct (pagination env fuel child response entries _) as [[all|e|] w1];
    cbn [snd] in Hrun |- *; rewrite Hrun; unfold with_trace; cbn;
    by rewrite <- app_assoc.
Qed.

(** ** More on the session *)

(** X8.  A granted login stores the token and the user and sends its request
    without an authorization header; every later call through [_api]
    carries the stored token as that header, provided the token is truthy
    (an empty token leaves the client logged out). *)
Theorem login_stores_token_and_user (env : Env.t) (w : World.t)
    (username password : string) (response : Response.t)
    (m : gmap string jvalue) (token u : jvalue) (user : TinybeansUser.t) :
  holds_token w = false ->
  Env.session_request env (World.trace w)
    (authenticate_request env (World.self w) username password)
  = Ok response ->
  Response.body response = Some (JObj m) ->
  m !! "accessToken" = Some token ->
  m !! "user" = Some u ->
  TinybeansUser.__init__ u = Ok user ->
  let logged :=
    World.mk (Self.mk token (Some user) (Self.bytes_uploaded (World.self w)))
      (World.trace w
         ++ [EvRequest (authenticate_request env (World.self w) username password)])
      (World.error_log w) (World.uuids_drawn w) in
  login env username password w = (Returns tt, logged)
  /\ Request.headers (authenticate_request env (World.self w) username password)
     = None
  /\ holds_token logged = Py.truthy token
  /\ forall path params json method,
       exists r,
         World.trace (_api env path params json method logged).2
         = World.trace logged ++ [EvRequest r]
         /\ Request.headers r
            = if Py.truthy token then Some [("authorization", token)] else None.
Proof.
  intros Hw Hresp Hbody Htoken Huser Hinit logged.
  assert (Hjson : Response.json response = Ok (JObj m))
    by (unfold Response.json; by rewrite Hbody).
  split; [|split; [|split; [reflexivity|]]].
  - rewrite (login_not_held _ _ _ _ Hw).
    cbv [bind session_request]. rewrite Hresp, Hjson. cbn [rbind lift].
    rewrite (getitem_Some _ _ _ Htoken), (getitem_Some _ _ _ Huser).
    cbn [rbind]. rewrite Hinit. reflexivity.
  - unfold authenticate_request, api_request. cbn [Request.headers].
    unfold holds_token in Hw. by rewrite Hw.
  - intros path params json method. eexists. rewrite _api_eq.
    cbv [session_request]. split; [reflexivity|]. reflexivity.
Qed.

Lemma login_stores_token_and_user_witness :
  holds_token
    (login (MockLogin.env (Response.mk 200 (Some MockLogin.granted))) "u" "p"
       World.init).2
  = true.
Proof.
  pose proof (login_stores_token_and_user
                (MockLogin.env (Response.mk 200 (Some MockLogin.granted)))
                World.init "u" "p" (Response.mk 200 (Some MockLogin.granted))
                (list_to_map [("accessToken", JStr "tok"); ("user", MockLogin.user)])
                (JStr "tok") MockLogin.user
                (TinybeansUser.mk (JInt 9) (JStr "a@b.c") (JStr "A") (JStr "B")
                   (JStr "ab"))
                eq_refl eq_refl eq_refl eq_refl eq_refl eq_refl) as H.
  cbv zeta in H. destruct H as (Hrun & _ & Hheld & _).
  rewrite Hrun. exact Hheld.
Defined.

(** X9.  [delete] first reads [entry.blobs['p']] for its log line: an entry
    without that blob is not deleted, the call raises before any request.
    Otherwise it sends one DELETE and returns whatever the response is;
    only an exception of the session itself is raised. *)
Theorem delete_outcome (env : Env.t) (w : World.t) (entry : TinybeanEntry.t) :
  match Py.getitem (TinybeanEntry.blobs entry) "p" with
  | Err e => delete env entry w = (Raises e, w)
  | Ok _ =>
      delete env entry w
      = (match Env.session_request env (World.trace w)
                 (delete_request env (World.self w) entry) with
         | Ok _ => Returns tt
         | Err e => Raises e
         end,
         World.emit (EvRequest (delete_request env (World.self w) entry)) w)
  end.
Proof.
  cbv [delete bind lift].
  destruct (Py.getitem (TinybeanEntry.blobs entry) "p"); cbv [ret raise]; [|done].
  rewrite _api_eq. cbv [session_request].
  fold (delete_request env (World.self w) entry).
  by destruct (Env.session_request env _ _).
Qed.

(** X7.  Without the [IDENTITY_ID] variable [s3_client] raises [KeyError]
    before it calls the identity service.  With it, the service is called
    once with that identity, and a client is handed out exactly when the
    answer carries the three credentials, which the client then holds,
    for region us-west-2. *)
Theorem s3_client_outcome (env : Env.t) (w : World.t) :
  match Env.environ env !! "IDENTITY_ID" with
  | None => s3_client env w = (Raises (KeyError (JStr "IDENTITY_ID")), w)
  | Some identity_id =>
      (s3_client env w).2 = World.emit (EvGetCredentials identity_id) w
      /\ forall s3 : S3Client.t,
           (s3_client env w).1 = Returns s3
           <-> exists credentials c,
                 Env.get_credentials_for_identity env (World.trace w) identity_id
                 = Ok credentials
                 /\ Py.getitem credentials "Credentials" = Ok c
                 /\ Py.getitem c "AccessKeyId" = Ok (S3Client.aws_access_key_id s3)
                 /\ Py.getitem c "SecretKey" = Ok (S3Client.aws_secret_access_key s3)
                 /\ Py.getitem c "SessionToken" = Ok (S3Client.aws_session_token s3)
                 /\ S3Client.region_name s3 = "us-west-2"
  end.
Proof.
  destruct (Env.environ env !! "IDENTITY_ID") as [identity_id|] eqn:Hid.
  2:{ cbv [s3_client bind os_environ]. by rewrite Hid. }
  split; [by apply s3_client_with_identity|].
  intros s3. cbv [s3_client bind os_environ get_credentials_for_identity].
  rewrite Hid. cbv [ret].
  destruct (Env.get_credentials_for_identity env (World.trace w) identity_id)
    as [cr|e] eqn:Hcr.
  2:{ split; [discriminate|]. intros (? & ? & H & _). discriminate H. }
  cbv [lift]. unfold rbind.
  destruct (Py.getitem cr "Credentials") as [c|e] eqn:Hc; cbv [raise].
  2:{ split; [discriminate|]. intros (? & ? & [= <-] & H & _). congruence. }
  destruct (Py.getitem c "AccessKeyId") as [k1|e] eqn:H1; cbv [ret raise].
  2:{ split; [discriminate|]. intros (? & ? & [= <-] & H & ? & _). congruence. }
  destruct (Py.getitem c "SecretKey") as [k2|e] eqn:H2.
  2:{ split; [discriminate|]. intros (? & ? & [= <-] & H & _ & ? & _). congruence. }
  destruct (Py.getitem c "SessionToken") as [k3|e] eqn:H3.
  2:{ split; [discriminate|].
      intros (? & ? & [= <-] & H & _ & _ & ? & _). congruence. }
  cbn [fst]. split.
  - intros [= <-]. exists cr, c. by repeat split.
  - intros (cr' & c' & [= <-] & H & Hk1 & Hk2 & Hk3 & Hregion).
    assert (c' = c) as -> by congruence.
    destruct s3. cbn in *. congruence.
Qed.
